(** * openhands/core/message.py: content blocks, message serialization,
      the function-call text encoding, the tool description and the
      native-to-text conversation rewriter.

    Python values are embedded as an inductive type of JSON-shaped data;
    exceptions are an explicit result type.  A Python [str] is held as the
    [string] of its UTF-8 bytes, so that concatenation, equality and the
    search for a newline are those of the source. *)

From Stdlib Require Import String Ascii List ZArith NArith Bool Lia Arith.
From Stdlib Require Import Numbers.DecimalString.
Import ListNotations.
Open Scope string_scope.

(** ** Results and exceptions *)

(** The exceptions that the modelled code (and the library calls it makes)
    can raise.  [ModuleException cls msg] is an instance of a class bound in
    the module's own namespace; [PydanticSerializationError cause] is what
    pydantic raises when a model serializer it calls fails with [cause]. *)
Inductive exn : Type :=
| ValueError (msg : string)
| KeyError (key : string)
| IndexError
| TypeError
| AttributeError
| AssertionError
| NameError (name : string)
| JSONDecodeError
| ValidationError
| ModuleException (cls : string) (msg : string)
| PydanticSerializationError (cause : exn).

Inductive result (A : Type) : Type :=
| Ok (a : A)
| Raise (e : exn).
Arguments Ok {A} a.
Arguments Raise {A} e.

Definition bind {A B : Type} (r : result A) (k : A -> result B) : result B :=
  match r with
  | Ok a => k a
  | Raise e => Raise e
  end.

Notation "x <- c ;; k" := (bind c (fun x => k))
  (at level 61, c at next level, right associativity).
Notation "' p <- c ;; k" := (bind c (fun x => match x with p => k end))
  (at level 61, p pattern, c at next level, right associativity).

Definition raises {A : Type} (r : result A) : bool :=
  match r with
  | Ok _ => false
  | Raise _ => true
  end.

(** ** Python values *)

(** A float is carried by the text [str()] gives for it: floating-point
    arithmetic itself is outside this development.  A dict keeps its items
    in insertion order. *)
#[warnings="-register-all"]
Inductive pyval : Type :=
| PNone
| PBool (b : bool)
| PInt (z : Z)
| PFloat (shown : string)
| PStr (s : string)
| PList (l : list pyval)
| PDict (d : list (string * pyval)).

Definition pydict : Type := list (string * pyval).

Definition LF : string := String (ascii_of_nat 10) EmptyString.

(** [d.get(k)] as an option, [k in d], and [d[k] = v] (an existing key keeps
    its position). *)
Fixpoint dict_get (d : pydict) (k : string) : option pyval :=
  match d with
  | [] => None
  | (k', v) :: rest => if String.eqb k' k then Some v else dict_get rest k
  end.

Definition dict_has (d : pydict) (k : string) : bool :=
  match dict_get d k with
  | Some _ => true
  | None => false
  end.

Fixpoint dict_set (d : pydict) (k : string) (v : pyval) : pydict :=
  match d with
  | [] => [(k, v)]
  | (k', v') :: rest =>
      if String.eqb k' k then (k', v) :: rest else (k', v') :: dict_set rest k v
  end.

Definition dict_get_default (d : pydict) (k : string) (dflt : pyval) : pyval :=
  match dict_get d k with
  | Some v => v
  | None => dflt
  end.

(** [d[k]] on a dict. *)
Definition dict_item (d : pydict) (k : string) : result pyval :=
  match dict_get d k with
  | Some v => Ok v
  | None => Raise (KeyError k)
  end.

(** [v[k]] with a string key on an arbitrary value: only a dict can be
    indexed by a string. *)
Definition py_getitem (v : pyval) (k : string) : result pyval :=
  match v with
  | PDict d => dict_item d k
  | _ => Raise TypeError
  end.

(** [v == s] for a string literal [s]. *)
Definition py_eq_str (v : pyval) (s : string) : bool :=
  match v with
  | PStr t => String.eqb t s
  | _ => false
  end.

(** A UTF-8 continuation byte (10xxxxxx). *)
Definition is_continuation (c : ascii) : bool :=
  let n := nat_of_ascii c in ((128 <=? n) && (n <? 192))%nat.

(** The characters of a [str]: each leading byte with the continuation
    bytes that follow it.  [split_chars s] gives the continuation bytes
    that [s] starts with and the characters after them. *)
Fixpoint split_chars (s : string) : string * list string :=
  match s with
  | EmptyString => (EmptyString, [])
  | String c rest =>
      let (k, chars) := split_chars rest in
      if is_continuation c then (String c k, chars)
      else (EmptyString, String c k :: chars)
  end.

Definition py_chars (s : string) : list string :=
  let (k, chars) := split_chars s in
  match k with
  | EmptyString => chars
  | _ => k :: chars
  end.

(** [len(v)]. *)
Definition py_len (v : pyval) : result nat :=
  match v with
  | PStr s => Ok (List.length (py_chars s))
  | PList l => Ok (List.length l)
  | PDict d => Ok (List.length d)
  | _ => Raise TypeError
  end.

(** [bool(v)]. *)
Definition py_truthy (v : pyval) : bool :=
  match v with
  | PNone => false
  | PBool b => b
  | PInt z => negb (Z.eqb z 0)
  | PFloat shown => negb (String.eqb shown "0.0" || String.eqb shown "-0.0")
  | PStr s => negb (String.eqb s "")
  | PList l => match l with [] => false | _ => true end
  | PDict d => match d with [] => false | _ => true end
  end.

(** [iter(v)]: the elements of a list, the characters of a str, the keys of
    a dict. *)
Definition py_iter (v : pyval) : result (list pyval) :=
  match v with
  | PStr s => Ok (map PStr (py_chars s))
  | PList l => Ok l
  | PDict d => Ok (map (fun kv => PStr (fst kv)) d)
  | _ => Raise TypeError
  end.

(** [v.items()] and [v.get(k, dflt)]: only a dict has them. *)
Definition py_items (v : pyval) : result pydict :=
  match v with
  | PDict d => Ok d
  | _ => Raise AttributeError
  end.

Definition py_get (v : pyval) (k : string) (dflt : pyval) : result pyval :=
  match v with
  | PDict d => Ok (dict_get_default d k dflt)
  | _ => Raise AttributeError
  end.

(** The field validation pydantic applies to a [str] field. *)
Definition validate_str (v : pyval) : result string :=
  match v with
  | PStr s => Ok s
  | _ => Raise ValidationError
  end.

Definition nat_str (n : nat) : string := NilZero.string_of_uint (Nat.to_uint n).
Definition int_str (z : Z) : string := NilZero.string_of_int (Z.to_int z).

(** ** json.loads

    The decoder of Python's [json] module on a [str]: a lexer over the
    characters followed by a stack automaton over the tokens.  [None] stands
    for [JSONDecodeError].  The interpreter's recursion limit and its cap on
    the digits of an integer literal are not modelled. *)

Inductive token : Type :=
| TLBrace | TRBrace | TLBrack | TRBrack | TColon | TComma
| TString (s : string)
| TInt (z : Z)
| TFloat (shown : string)
| TTrue | TFalse | TNull.

Definition ch (n : nat) : ascii := ascii_of_nat n.

Definition is_ws (c : ascii) : bool :=
  let n := nat_of_ascii c in
  (Nat.eqb n 32 || Nat.eqb n 9 || Nat.eqb n 10 || Nat.eqb n 13)%bool.

Definition is_digit (c : ascii) : bool :=
  let n := nat_of_ascii c in ((48 <=? n) && (n <=? 57))%nat.

(** The characters a number literal is made of. *)
Definition is_num_char (c : ascii) : bool :=
  (is_digit c || Ascii.eqb c "-" || Ascii.eqb c "+" || Ascii.eqb c "."
   || Ascii.eqb c "e" || Ascii.eqb c "E")%bool.

Definition hex_val (c : ascii) : option N :=
  let n := N_of_ascii c in
  if ((48 <=? n) && (n <=? 57))%N then Some (n - 48)%N
  else if ((97 <=? n) && (n <=? 102))%N then Some (n - 87)%N
  else if ((65 <=? n) && (n <=? 70))%N then Some (n - 55)%N
  else None.

Definition hex4 (a b c d : ascii) : option N :=
  match hex_val a, hex_val b, hex_val c, hex_val d with
  | Some x, Some y, Some z, Some w => Some (((x * 16 + y) * 16 + z) * 16 + w)%N
  | _, _, _, _ => None
  end.

(** UTF-8 bytes of a code point (a lone surrogate takes the three-byte
    form). *)
Definition utf8 (cp : N) : string :=
  let byte (n : N) := ascii_of_N n in
  if (cp <? 128)%N then String (byte cp) ""
  else if (cp <? 2048)%N then
    String (byte (192 + cp / 64)%N) (String (byte (128 + cp mod 64)%N) "")
  else if (cp <? 65536)%N then
    String (byte (224 + cp / 4096)%N)
      (String (byte (128 + (cp / 64) mod 64)%N) (String (byte (128 + cp mod 64)%N) ""))
  else
    String (byte (240 + cp / 262144)%N)
      (String (byte (128 + (cp / 4096) mod 64)%N)
         (String (byte (128 + (cp / 64) mod 64)%N)
            (String (byte (128 + cp mod 64)%N) ""))).

Definition is_high_surrogate (cp : N) : bool := ((55296 <=? cp) && (cp <=? 56319))%N.
Definition is_low_surrogate (cp : N) : bool := ((56320 <=? cp) && (cp <=? 57343))%N.
Definition join_surrogates (hi lo : N) : N :=
  (65536 + ((hi - 55296) * 1024 + (lo - 56320)))%N.

Fixpoint take_digits (s : string) : string * string :=
  match s with
  | String c rest =>
      if is_digit c
      then let (h, t) := take_digits rest in (String c h, t)
      else (EmptyString, s)
  | EmptyString => (EmptyString, EmptyString)
  end.

Fixpoint digits_value (s : string) (acc : Z) : Z :=
  match s with
  | String c rest => digits_value rest (10 * acc + Z.of_nat (nat_of_ascii c - 48))%Z
  | EmptyString => acc
  end.

(** The integer part of a literal: [0] or a digit from 1 to 9 followed by
    digits. *)
Definition take_int_part (s : string) : option (string * string) :=
  match s with
  | String c rest =>
      if Ascii.eqb c "0" then Some ("0", rest)
      else if is_digit c then let (h, t) := take_digits rest in Some (String c h, t)
      else None
  | EmptyString => None
  end.

Definition take_fraction (s : string) : option (string * string) :=
  match s with
  | String c rest =>
      if Ascii.eqb c "." then
        match take_digits rest with
        | (EmptyString, _) => None
        | (ds, t) => Some (String c ds, t)
        end
      else None
  | EmptyString => None
  end.

Definition take_exponent (s : string) : option (string * string) :=
  match s with
  | String c rest =>
      if (Ascii.eqb c "e" || Ascii.eqb c "E")%bool then
        let (sign, rest') :=
          match rest with
          | String g r => if (Ascii.eqb g "+" || Ascii.eqb g "-")%bool
                          then (String g "", r) else ("", rest)
          | EmptyString => ("", rest)
          end in
        match take_digits rest' with
        | (EmptyString, _) => None
        | (ds, t) => Some (String c (sign ++ ds), t)
        end
      else None
  | EmptyString => None
  end.

Definition option_bind {A B : Type} (o : option A) (k : A -> option B) : option B :=
  match o with
  | Some a => k a
  | None => None
  end.

(** ** The content model *)

Inductive ContentType : Type := TEXT | IMAGE_URL | TOOL_CALL | TOOL_RESPONSE.

Definition ContentType_value (t : ContentType) : string :=
  match t with
  | TEXT => "text"
  | IMAGE_URL => "image_url"
  | TOOL_CALL => "tool_call"
  | TOOL_RESPONSE => "tool_response"
  end.

(** The four concrete content classes.  The [type] attribute of each class
    is its discriminator: no constructor call of the module passes it, so
    every block carries the default of its class and the field is not
    repeated in the records. *)
Record TextContent : Type := mkTextContent {
  text_cache_prompt : bool;
  text : string }.

Record ImageContent : Type := mkImageContent {
  image_cache_prompt : bool;
  image_urls : list string }.

Record ToolCallContent : Type := mkToolCallContent {
  call_cache_prompt : bool;
  function_name : string;
  function_arguments : string;
  call_tool_call_id : string }.

Record ToolResponseContent : Type := mkToolResponseContent {
  response_cache_prompt : bool;
  response_tool_call_id : string;
  response_name : string;
  response_content : string }.

Inductive Content : Type :=
| CText (c : TextContent)
| CImage (c : ImageContent)
| CToolCall (c : ToolCallContent)
| CToolResponse (c : ToolResponseContent).

Inductive Role : Type := role_user | role_system | role_assistant | role_tool.

Definition Role_value (r : Role) : string :=
  match r with
  | role_user => "user"
  | role_system => "system"
  | role_assistant => "assistant"
  | role_tool => "tool"
  end.

Record Message : Type := mkMessage {
  role : Role;
  content : list Content;
  cache_enabled : bool;
  vision_enabled : bool;
  function_calling_enabled : bool;
  tool_calls : option (list pyval);
  tool_call_id : option string;
  name : option string }.

(** [TextContent(text=s)], [ImageContent(image_urls=us)] and
    [Message(role=r, content=c, function_calling_enabled=f)]: the other
    fields take their defaults. *)
Definition new_TextContent (s : string) : TextContent := mkTextContent false s.
Definition new_ImageContent (us : list string) : ImageContent := mkImageContent false us.
Definition new_Message (r : Role) (c : list Content) (f : bool) : Message :=
  mkMessage r c false false f None None None.

(** The names bound in the module's namespace: its imports and its
    classes. *)
Definition module_names : list string :=
  [ "json"; "uuid"; "Enum"; "Literal"; "ChatCompletionMessageToolCall";
    "BaseModel"; "Field"; "model_serializer";
    "SYSTEM_PROMPT_SUFFIX_TEMPLATE"; "IN_CONTEXT_LEARNING_EXAMPLE_PREFIX";
    "IN_CONTEXT_LEARNING_EXAMPLE_SUFFIX";
    "ContentType"; "Content"; "TextContent"; "ImageContent";
    "ToolCallContent"; "ToolResponseContent"; "Message" ].

(** [raise cls(msg)] for an exception class looked up by name in the
    module: a name that is not bound there fails with [NameError] before
    any instance is built. *)
Definition raise_named {A : Type} (cls msg : string) : result A :=
  if existsb (String.eqb cls) module_names
  then Raise (ModuleException cls msg)
  else Raise (NameError cls).

(** ['\n' in s]. *)
Fixpoint has_newline (s : string) : bool :=
  match s with
  | String c rest => (Ascii.eqb c (ascii_of_nat 10) || has_newline rest)%bool
  | EmptyString => false
  end.

(** [isinstance(v, str) and '\n' in v]. *)
Definition is_multiline_str (v : pyval) : bool :=
  match v with
  | PStr s => has_newline s
  | _ => false
  end.

(** [l[-1] = f(l[-1])] on a list. *)
Fixpoint update_last {A : Type} (f : A -> A) (l : list A) : list A :=
  match l with
  | [] => []
  | [x] => [f x]
  | x :: rest => x :: update_last f rest
  end.

Definition is_hashable (v : pyval) : bool :=
  match v with
  | PList _ | PDict _ => false
  | _ => true
  end.

(** [set(v)], kept as the list of its elements. *)
Definition py_set (v : pyval) : result (list pyval) :=
  elems <- py_iter v ;;
  if forallb is_hashable elems then Ok elems else Raise TypeError.

(** [v[0]]. *)
Definition py_first (v : pyval) : result pyval :=
  match v with
  | PList (x :: _) => Ok x
  | PList [] => Raise IndexError
  | PStr s => match py_chars s with c :: _ => Ok (PStr c) | [] => Raise IndexError end
  | PDict _ => Raise (KeyError "0")
  | _ => Raise TypeError
  end.

(** [v += s] for a str [s]: concatenation on a str, extension by the
    characters of [s] on a list. *)
Definition py_iadd_str (v : pyval) (s : string) : result pyval :=
  match v with
  | PStr t => Ok (PStr (t ++ s))
  | PList l => Ok (PList (l ++ map PStr (py_chars s)))
  | _ => Raise TypeError
  end.

(** [mapM] for results, in list order. *)
Fixpoint map_result {A B : Type} (f : A -> result B) (l : list A) : result (list B) :=
  match l with
  | [] => Ok []
  | x :: rest => y <- f x ;; ys <- map_result f rest ;; Ok (y :: ys)
  end.

(** ** Sample inputs for the closed examples

    Stand-ins for what the module takes from outside (no example holds a
    float or a str inside a container, so the two printers are never
    consulted), and a few conversations. *)

Definition DQ : string := String (ascii_of_nat 34) EmptyString.
Definition BS : string := String (ascii_of_nat 92) EmptyString.

Definition sample_float_shown (literal : string) : string := literal.
Definition sample_str_repr (s : string) : string := "'" ++ s ++ "'".
Definition sample_suffix_template (description : string) : string :=
  LF ++ "You have access to the following functions:" ++ LF ++ description.
Definition sample_example_prefix : string :=
  "Here is an example of how to call a function." ++ LF ++ "NOW THE NEW TASK:" ++ LF.
Definition sample_example_suffix : string :=
  LF ++ "END OF THE NEW TASK".

(** The JSON text of an object with the key cmd, a str of two lines, and
    the key timeout, the number 30. *)
Definition sample_arguments : string :=
  "{" ++ DQ ++ "cmd" ++ DQ ++ ": " ++ DQ ++ "ls -la" ++ BS ++ "necho hi" ++ DQ
      ++ ", " ++ DQ ++ "timeout" ++ DQ ++ ": 30}".

Definition sample_call : ToolCallContent :=
  mkToolCallContent false "run" sample_arguments "call_1".

Definition sample_other_call : ToolCallContent :=
  mkToolCallContent false "ls" "{}" "call_2".

Definition sample_response : ToolResponseContent :=
  mkToolResponseContent false "call_1" "run" "a.txt".

Definition sample_other_response : ToolResponseContent :=
  mkToolResponseContent false "call_2" "ls" "b.txt".

Definition sample_native_call_message : Message :=
  mkMessage role_assistant
    [CText (new_TextContent "I will list the files."); CToolCall sample_call;
     CToolCall sample_other_call; CToolResponse sample_response]
    false false true None None None.

Definition sample_native_response_message : Message :=
  mkMessage role_tool
    [CText (new_TextContent "done"); CToolResponse sample_response;
     CToolResponse sample_other_response]
    false false true None None None.

(** A ToolCall block and a raw tool call whose arguments are not JSON. *)
Definition sample_bad_call : ToolCallContent :=
  mkToolCallContent false "run" "{" "call_1".


Definition raw_tool_call (id nm args : string) : pyval :=
  PDict [("id", PStr id); ("type", PStr "function");
         ("function", PDict [("name", PStr nm); ("arguments", PStr args)])].

Definition sample_system : pydict :=
  [("role", PStr "system"); ("content", PStr "You are helpful.")].

Definition sample_conversation : list pydict :=
  [ sample_system;
    [("role", PStr "user"); ("content", PStr "List files")];
    [("role", PStr "assistant"); ("tool_calls", PList [raw_tool_call "1" "ls" "{}"])];
    [("role", PStr "tool"); ("tool_call_id", PStr "1"); ("name", PStr "ls");
     ("content", PStr "a.txt")];
    [("role", PStr "user"); ("content", PStr "And now the hidden ones")] ].



Definition sample_one_bad_call : list pydict :=
  [ [("role", PStr "assistant"); ("tool_calls", PList [raw_tool_call "1" "run" "{"])] ].

Definition sample_image_conversation : list pydict :=
  [ [("role", PStr "system");
     ("content",
      PList [PDict [("type", PStr "text"); ("text", PStr "You are helpful.")];
             PDict [("type", PStr "image_url");
                    ("image_url", PDict [("url", PStr "https://example.org/logo.png")])]])];
    [("role", PStr "user");
     ("content",
      PList [PDict [("type", PStr "image_url");
                    ("image_url", PDict [("url", PStr "https://example.org/shot.png")])];
             PDict [("type", PStr "text"); ("text", PStr "What is on the screen?")]])] ].

(** More sample inputs. *)

Definition sample_list_format_message : Message :=
  mkMessage role_assistant
    [CText (new_TextContent "Look:"); CImage (new_ImageContent ["a"; "b"]);
     CToolCall sample_bad_call]
    true false false None None None.

Definition sample_plain_blocks : list Content :=
  [CText (new_TextContent "one"); CImage (new_ImageContent ["a"]);
   CText (new_TextContent "two")].

Definition sample_raw_call : pydict :=
  [("id", PStr "call_1"); ("type", PStr "function");
   ("function", PDict [("name", PStr "run"); ("arguments", PStr sample_arguments)])].

Definition sample_list_arguments_call : ToolCallContent :=
  mkToolCallContent false "run" "[1, 2]" "call_1".

Definition sample_no_properties_tool : pydict :=
  [("type", PStr "function");
   ("function",
    PDict [("name", PStr "ping"); ("description", PStr "Ping.");
           ("parameters", PDict [("type", PStr "object")])])].

Definition sample_two_systems : list pydict :=
  [ sample_system;
    [("role", PStr "user"); ("content", PStr "Hello")];
    [("role", PStr "system")] ].

Definition sample_unnamed_tool_result : list pydict :=
  [ [("role", PStr "tool"); ("tool_call_id", PStr "7"); ("content", PStr "ok")] ].

Definition sample_plain_assistant : list pydict :=
  [ [("role", PStr "assistant"); ("content", PStr "Done."); ("refusal", PNone)];
    [("role", PStr "developer"); ("content", PStr "Be brief.")] ].

Definition sample_missing_role : list pydict :=
  [ sample_system; [("content", PStr "Who am I?")] ].

Definition sample_incomplete_tool_result : list pydict :=
  [ sample_system; [("role", PStr "tool"); ("content", PStr "ok")] ].

Definition sample_null_tool_calls : list pydict :=
  [ sample_system;
    [("role", PStr "assistant"); ("content", PStr "Done."); ("tool_calls", PNone)] ].

Definition sample_null_contents : list pydict :=
  [ [("role", PStr "system"); ("content", PNone)];
    [("role", PStr "user"); ("content", PNone)];
    [("role", PStr "user"); ("content", PStr "Second question")] ].

Definition sample_audio_block : list pydict :=
  [ [("role", PStr "system");
     ("content",
      PList [PDict [("type", PStr "text"); ("text", PStr "You are helpful.")];
             PDict [("type", PStr "input_audio"); ("input_audio", PStr "...")]])] ].

Section Model.

(** What the module takes from outside.  [float_shown lit] is the text of
    [str(float(lit))] for a number literal with a fraction or an exponent;
    [str_repr s] is [repr(s)] of a str.  The three prompt templates are
    imported from [openhands.llm.fn_call_converter];
    [SYSTEM_PROMPT_SUFFIX_TEMPLATE d] is the template formatted with
    [description=d]. *)
Variable float_shown : string -> string.
Variable str_repr : string -> string.
Variable SYSTEM_PROMPT_SUFFIX_TEMPLATE : string -> string.
Variable IN_CONTEXT_LEARNING_EXAMPLE_PREFIX : string.
Variable IN_CONTEXT_LEARNING_EXAMPLE_SUFFIX : string.

(** A whole number literal: an optional minus sign, an integer part, an
    optional fraction (a dot and digits) and an optional exponent (e or E,
    an optional sign, digits); an int unless it has a fraction or an
    exponent. *)
Definition number_token (lexeme : string) : option token :=
  let (negative, s1) :=
    match lexeme with
    | String c rest => if Ascii.eqb c "-" then (true, rest) else (false, lexeme)
    | EmptyString => (false, lexeme)
    end in
  match take_int_part s1 with
  | None => None
  | Some (ip, s2) =>
      let (is_float, s3) :=
        match take_fraction s2 with
        | Some (_, t) => (true, t)
        | None => (false, s2)
        end in
      let (is_float', s4) :=
        match take_exponent s3 with
        | Some (_, t) => (true, t)
        | None => (is_float, s3)
        end in
      match s4 with
      | EmptyString =>
          if is_float' then Some (TFloat (float_shown lexeme))
          else Some (TInt (if negative then - digits_value ip 0 else digits_value ip 0)%Z)
      | _ => None
      end
  end.

Inductive lex_mode : Type :=
| MTop
| MStr (acc : string)
| MNum (acc : string).

Definition starts_with3 (a b c : ascii) (w : string) : bool :=
  String.eqb (String a (String b (String c ""))) w.

(** The lexer.  Inside a string literal the escapes are decoded and a
    control character is refused.  A number literal is collected up to the
    first character that cannot belong to one and must then be a whole
    literal: a text in which a digit, sign, dot or exponent letter follows
    a literal directly is not JSON however it is cut. *)
Fixpoint lex (s : string) (m : lex_mode) : option (list token) :=
  match s with
  | EmptyString =>
      match m with
      | MTop => Some []
      | MStr _ => None
      | MNum acc => option_bind (number_token acc) (fun t => Some [t])
      end
  | String c rest =>
      let emit (t : token) (r : string) := option_bind (lex r MTop) (fun ts => Some (t :: ts)) in
      let top (_ : unit) : option (list token) :=
        if is_ws c then lex rest MTop
        else if Ascii.eqb c (ch 34) then lex rest (MStr "")
        else if Ascii.eqb c "{" then emit TLBrace rest
        else if Ascii.eqb c "}" then emit TRBrace rest
        else if Ascii.eqb c "[" then emit TLBrack rest
        else if Ascii.eqb c "]" then emit TRBrack rest
        else if Ascii.eqb c ":" then emit TColon rest
        else if Ascii.eqb c "," then emit TComma rest
        else if is_digit c then lex rest (MNum (String c ""))
        else if Ascii.eqb c "-" then
          match rest with
          | String a1 (String a2 (String a3 (String a4 (String a5 (String a6
              (String a7 (String a8 r))))))) =>
              if String.eqb (String a1 (String a2 (String a3 (String a4 (String a5
                   (String a6 (String a7 (String a8 "")))))))) "Infinity"
              then emit (TFloat "-inf") r
              else lex rest (MNum "-")
          | _ => lex rest (MNum "-")
          end
        else if Ascii.eqb c "t" then
          match rest with
          | String a1 (String a2 (String a3 r)) =>
              if starts_with3 a1 a2 a3 "rue" then emit TTrue r else None
          | _ => None
          end
        else if Ascii.eqb c "f" then
          match rest with
          | String a1 (String a2 (String a3 (String a4 r))) =>
              if (starts_with3 a1 a2 a3 "als" && Ascii.eqb a4 "e")%bool
              then emit TFalse r else None
          | _ => None
          end
        else if Ascii.eqb c "n" then
          match rest with
          | String a1 (String a2 (String a3 r)) =>
              if starts_with3 a1 a2 a3 "ull" then emit TNull r else None
          | _ => None
          end
        else if Ascii.eqb c "N" then
          match rest with
          | String a1 (String a2 r) =>
              if (Ascii.eqb a1 "a" && Ascii.eqb a2 "N")%bool
              then emit (TFloat "nan") r else None
          | _ => None
          end
        else if Ascii.eqb c "I" then
          match rest with
          | String a1 (String a2 (String a3 (String a4 (String a5 (String a6
              (String a7 r)))))) =>
              if String.eqb (String a1 (String a2 (String a3 (String a4 (String a5
                   (String a6 (String a7 ""))))))) "nfinity"
              then emit (TFloat "inf") r else None
          | _ => None
          end
        else None in
      match m with
      | MTop => top tt
      | MNum acc =>
          if is_num_char c then lex rest (MNum (acc ++ String c ""))
          else option_bind (number_token acc)
                 (fun t => option_bind (top tt) (fun ts => Some (t :: ts)))
      | MStr acc =>
          if Ascii.eqb c (ch 34) then emit (TString acc) rest
          else if Ascii.eqb c (ch 92) then
            match rest with
            | String e r =>
                let plain (d : ascii) := lex r (MStr (acc ++ String d "")) in
                if Ascii.eqb e (ch 34) then plain e
                else if Ascii.eqb e (ch 92) then plain e
                else if Ascii.eqb e "/" then plain e
                else if Ascii.eqb e "b" then plain (ch 8)
                else if Ascii.eqb e "f" then plain (ch 12)
                else if Ascii.eqb e "n" then plain (ch 10)
                else if Ascii.eqb e "r" then plain (ch 13)
                else if Ascii.eqb e "t" then plain (ch 9)
                else if Ascii.eqb e "u" then
                  match r with
                  | String h1 (String h2 (String h3 (String h4 r2))) =>
                      match hex4 h1 h2 h3 h4 with
                      | None => None
                      | Some cp =>
                          let lone (_ : unit) := lex r2 (MStr (acc ++ utf8 cp)) in
                          if is_high_surrogate cp then
                            match r2 with
                            | String b1 (String b2 (String g1 (String g2 (String g3
                                (String g4 r3))))) =>
                                if (Ascii.eqb b1 (ch 92) && Ascii.eqb b2 "u")%bool then
                                  match hex4 g1 g2 g3 g4 with
                                  | None => None
                                  | Some cp2 =>
                                      if is_low_surrogate cp2
                                      then lex r3 (MStr (acc ++ utf8 (join_surrogates cp cp2)))
                                      else lone tt
                                  end
                                else lone tt
                            | _ => lone tt
                            end
                          else lone tt
                      end
                  | _ => None
                  end
                else None
            | EmptyString => None
            end
          else if (nat_of_ascii c <? 32)%nat then None
          else lex rest (MStr (acc ++ String c ""))
      end
  end.

(** The parser: a stack of the containers being filled and what may come
    next. *)
Inductive frame : Type :=
| FList (acc : list pyval)
| FDict (acc : pydict)
| FDictKey (acc : pydict) (key : string).

Inductive phase : Type :=
| PValue | PValueOrEnd | PKeyOrEnd | PKey | PColon | PAfter
| PDone (v : pyval).

Definition complete (v : pyval) (stack : list frame) : option (list frame * phase) :=
  match stack with
  | [] => Some ([], PDone v)
  | FList acc :: st => Some (FList (acc ++ [v]) :: st, PAfter)
  | FDictKey acc k :: st => Some (FDict (dict_set acc k v) :: st, PAfter)
  | FDict _ :: _ => None
  end.

Definition close_list (stack : list frame) : option (list frame * phase) :=
  match stack with
  | FList acc :: st => complete (PList acc) st
  | _ => None
  end.

Definition close_dict (stack : list frame) : option (list frame * phase) :=
  match stack with
  | FDict acc :: st => complete (PDict acc) st
  | _ => None
  end.

Definition parse_value_token (t : token) (stack : list frame) (may_end : bool)
  : option (list frame * phase) :=
  match t with
  | TString s => complete (PStr s) stack
  | TInt z => complete (PInt z) stack
  | TFloat f => complete (PFloat f) stack
  | TTrue => complete (PBool true) stack
  | TFalse => complete (PBool false) stack
  | TNull => complete PNone stack
  | TLBrack => Some (FList [] :: stack, PValueOrEnd)
  | TLBrace => Some (FDict [] :: stack, PKeyOrEnd)
  | TRBrack => if may_end then close_list stack else None
  | _ => None
  end.

Definition parse_key_token (t : token) (stack : list frame) (may_end : bool)
  : option (list frame * phase) :=
  match t with
  | TString k =>
      match stack with
      | FDict acc :: st => Some (FDictKey acc k :: st, PColon)
      | _ => None
      end
  | TRBrace => if may_end then close_dict stack else None
  | _ => None
  end.

Definition parse_step (t : token) (stack : list frame) (p : phase)
  : option (list frame * phase) :=
  match p with
  | PValue => parse_value_token t stack false
  | PValueOrEnd => parse_value_token t stack true
  | PKeyOrEnd => parse_key_token t stack true
  | PKey => parse_key_token t stack false
  | PColon => match t with TColon => Some (stack, PValue) | _ => None end
  | PAfter =>
      match t with
      | TComma =>
          match stack with
          | FList _ :: _ => Some (stack, PValue)
          | FDict _ :: _ => Some (stack, PKey)
          | _ => None
          end
      | TRBrack => close_list stack
      | TRBrace => close_dict stack
      | _ => None
      end
  | PDone _ => None
  end.

Fixpoint parse_tokens (ts : list token) (stack : list frame) (p : phase) : option pyval :=
  match ts with
  | [] => match stack, p with
          | [], PDone v => Some v
          | _, _ => None
          end
  | t :: rest =>
      match parse_step t stack p with
      | Some (stack', p') => parse_tokens rest stack' p'
      | None => None
      end
  end.

Definition json_loads (s : string) : option pyval :=
  option_bind (lex s MTop) (fun ts => parse_tokens ts [] PValue).

(** [json.loads(v)] as called by the code: a str is decoded, anything else
    is a type error. *)
Definition py_json_loads (v : pyval) : result pyval :=
  match v with
  | PStr s =>
      match json_loads s with
      | Some x => Ok x
      | None => Raise JSONDecodeError
      end
  | _ => Raise TypeError
  end.

(** [repr(v)] and [str(v)] (what an f-string field gives). *)
Fixpoint py_repr (v : pyval) : string :=
  match v with
  | PNone => "None"
  | PBool true => "True"
  | PBool false => "False"
  | PInt z => int_str z
  | PFloat shown => shown
  | PStr s => str_repr s
  | PList l => "[" ++ String.concat ", " (map py_repr l) ++ "]"
  | PDict d =>
      "{" ++ String.concat ", "
               (map (fun kv => match kv with
                               | (k, x) => str_repr k ++ ": " ++ py_repr x
                               end) d) ++ "}"
  end.

Definition py_str (v : pyval) : string :=
  match v with
  | PStr s => s
  | _ => py_repr v
  end.

(** ** Content blocks *)

Definition ephemeral : pyval := PDict [("type", PStr "ephemeral")].

(** [TextContent.serialize_model] *)
Definition TextContent_serialize_model (self : TextContent) : pyval :=
  let data := [("type", PStr (ContentType_value TEXT)); ("text", PStr (text self))] in
  let data := if text_cache_prompt self then dict_set data "cache_control" ephemeral
              else data in
  PDict data.

(** [ImageContent.serialize_model] *)
Definition ImageContent_serialize_model (self : ImageContent) : list pyval :=
  let images :=
    fold_left
      (fun (images : list pydict) (url : string) =>
         (images ++ [[("type", PStr (ContentType_value IMAGE_URL));
                      ("image_url", PDict [("url", PStr url)])]])%list)
      (image_urls self) [] in
  let images :=
    if (image_cache_prompt self && negb (Nat.eqb (List.length images) 0))%bool
    then update_last (fun d => dict_set d "cache_control" ephemeral) images
    else images in
  map PDict images.

(** [ToolCallContent.serialize_model] *)
Definition ToolCallContent_serialize_model (self : ToolCallContent) : pyval :=
  PDict [("type", PStr (ContentType_value TOOL_CALL));
         ("tool_calls",
          PList [PDict [("id", PStr (call_tool_call_id self));
                        ("type", PStr "function");
                        ("function",
                         PDict [("name", PStr (function_name self));
                                ("arguments", PStr (function_arguments self))])]])].

(** The body of the loop over [args.items()], shared word for word by
    [ToolCallContent.to_string_format] and [Message._tool_call_to_string]. *)
Definition append_parameter (ret : string) (item : string * pyval) : string :=
  let (param_name, param_value) := item in
  let is_multiline := is_multiline_str param_value in
  let ret := ret ++ "<parameter=" ++ param_name ++ ">" in
  let ret := if is_multiline then ret ++ LF else ret in
  let ret := ret ++ py_str param_value in
  let ret := if is_multiline then ret ++ LF else ret in
  ret ++ "</parameter>" ++ LF.

(** [ToolCallContent.to_string_format].  The handler of the [try] names
    [FunctionCallConversionError], which the module neither imports nor
    defines. *)
Definition ToolCallContent_to_string_format (self : ToolCallContent) : result string :=
  let ret := "<function=" ++ function_name self ++ ">" ++ LF in
  let body :=
    args <- py_json_loads (PStr (function_arguments self)) ;;
    items <- py_items args ;;
    Ok (fold_left append_parameter items ret) in
  match body with
  | Raise JSONDecodeError =>
      raise_named "FunctionCallConversionError"
        ("Failed to parse arguments as JSON. Arguments: " ++ function_arguments self)
  | Raise e => Raise e
  | Ok ret => Ok (ret ++ "</function>")
  end.

(** [ToolResponseContent.serialize_model] and [to_string_format] *)
Definition ToolResponseContent_serialize_model (self : ToolResponseContent) : pyval :=
  PDict [("type", PStr (ContentType_value TOOL_RESPONSE));
         ("content", PStr (response_content self))].

Definition ToolResponseContent_to_string_format (self : ToolResponseContent) : string :=
  "EXECUTION RESULT of [" ++ response_name self ++ "]:" ++ LF ++ response_content self.

(** ** Message serialization *)

(** The list-format loop of both serializers: an image block is spliced
    in, every other block is appended. *)
Definition list_format_content (items : list Content) : list pyval :=
  fold_left
    (fun (content : list pyval) (item : Content) =>
       match item with
       | CImage c => (content ++ ImageContent_serialize_model c)%list
       | CText c => (content ++ [TextContent_serialize_model c])%list
       | CToolCall c => (content ++ [ToolCallContent_serialize_model c])%list
       | CToolResponse c => (content ++ [ToolResponseContent_serialize_model c])%list
       end)
    items [].

(** The string-format loop of [_string_function_serializer]. *)
Fixpoint string_format_parts (items : list Content) (content_parts : list string)
  : result (list string) :=
  match items with
  | [] => Ok content_parts
  | item :: rest =>
      match item with
      | CText c => string_format_parts rest (content_parts ++ [text c])
      | CToolCall c =>
          s <- ToolCallContent_to_string_format c ;;
          string_format_parts rest (content_parts ++ [s])
      | CToolResponse c =>
          string_format_parts rest
            (content_parts ++ [ToolResponseContent_to_string_format c])
      | CImage _ => string_format_parts rest content_parts
      end
  end.

(** [Message._string_function_serializer] *)
Definition _string_function_serializer (self : Message) (use_list_format : bool)
  : result pyval :=
  let message_dict := [("role", PStr (Role_value (role self)))] in
  if use_list_format then
    Ok (PDict (dict_set message_dict "content"
                 (PList (list_format_content (content self)))))
  else
    content_parts <- string_format_parts (content self) [] ;;
    Ok (PDict (dict_set message_dict "content"
                 (PStr (String.concat LF content_parts)))).

(** [next((c for c in content if isinstance(c, ...)), None)] *)
Fixpoint first_tool_call (items : list Content) : option ToolCallContent :=
  match items with
  | [] => None
  | CToolCall c :: _ => Some c
  | _ :: rest => first_tool_call rest
  end.

Fixpoint first_tool_response (items : list Content) : option ToolResponseContent :=
  match items with
  | [] => None
  | CToolResponse c :: _ => Some c
  | _ :: rest => first_tool_response rest
  end.

(** The texts of the Text blocks, in order. *)
Fixpoint text_items (items : list Content) : list string :=
  match items with
  | [] => []
  | CText c :: rest => text c :: text_items rest
  | _ :: rest => text_items rest
  end.

(** [Message._native_function_serializer].  A content block is a model
    instance, hence truthy: the two tests only ask whether one was found. *)
Definition _native_function_serializer (self : Message) (use_list_format : bool)
  : pyval :=
  let message_dict := [("role", PStr (Role_value (role self)))] in
  match first_tool_call (content self) with
  | Some tool_call_content =>
      let message_dict := dict_set message_dict "content" PNone in
      let message_dict :=
        dict_set message_dict "tool_calls"
          (PList [PDict [("id", PStr (call_tool_call_id tool_call_content));
                         ("type", PStr "function");
                         ("function",
                          PDict [("name", PStr (function_name tool_call_content));
                                 ("arguments",
                                  PStr (function_arguments tool_call_content))])]]) in
      PDict message_dict
  | None =>
      match first_tool_response (content self) with
      | Some tool_response_content =>
          let message_dict :=
            dict_set message_dict "content" (PStr (response_content tool_response_content)) in
          let message_dict :=
            dict_set message_dict "tool_call_id"
              (PStr (response_tool_call_id tool_response_content)) in
          let message_dict :=
            dict_set message_dict "name" (PStr (response_name tool_response_content)) in
          PDict message_dict
      | None =>
          if use_list_format then
            PDict (dict_set message_dict "content"
                     (PList (list_format_content (content self))))
          else
            PDict (dict_set message_dict "content"
                     (PStr (String.concat LF (text_items (content self)))))
      end
  end.

(** [Message.serialize_model] *)
Definition Message_serialize_model (self : Message) : result pyval :=
  let needs_list_format := (cache_enabled self || vision_enabled self)%bool in
  if function_calling_enabled self
  then Ok (_native_function_serializer self needs_list_format)
  else _string_function_serializer self needs_list_format.

(** [self.model_dump()]: pydantic calls the model serializer and wraps an
    exception raised inside it. *)
Definition Message_model_dump (self : Message) : result pyval :=
  match Message_serialize_model self with
  | Ok dumped => Ok dumped
  | Raise e => Raise (PydanticSerializationError e)
  end.

(** ** The tool description *)

(** The loop over [enumerate(properties.items())] of
    [_tools_to_description]. *)
Fixpoint describe_parameters (items : pydict) (required_params : list pyval)
  (j : nat) (ret : string) : result string :=
  match items with
  | [] => Ok ret
  | (param_name, param_info) :: rest =>
      let is_required := existsb (fun r => py_eq_str r param_name) required_params in
      let param_status := if is_required then "required" else "optional" in
      param_type <- py_get param_info "type" (PStr "string") ;;
      desc <- py_get param_info "description" (PStr "No description provided") ;;
      info <- py_items param_info ;;
      desc <-
        (if dict_has info "enum" then
           enum <- dict_item info "enum" ;;
           values <- py_iter enum ;;
           let enum_values :=
             String.concat ", " (map (fun v => "`" ++ py_str v ++ "`") values) in
           py_iadd_str desc (LF ++ "Allowed values: [" ++ enum_values ++ "]")
         else Ok desc) ;;
      let ret :=
        ret ++ "  (" ++ nat_str (j + 1) ++ ") " ++ param_name ++ " ("
            ++ py_str param_type ++ ", " ++ param_status ++ "): "
            ++ py_str desc ++ LF in
      describe_parameters rest required_params (S j) ret
  end.

(** The loop over [enumerate(tools)] of [_tools_to_description]. *)
Fixpoint describe_tools (tools : list pydict) (i : nat) (ret : string)
  : result string :=
  match tools with
  | [] => Ok ret
  | tool :: rest =>
      type <- dict_item tool "type" ;;
      if negb (py_eq_str type "function") then Raise AssertionError else
      fn <- dict_item tool "function" ;;
      let ret := if (0 <? i)%nat then ret ++ LF else ret in
      fn_name <- py_getitem fn "name" ;;
      let ret :=
        ret ++ "---- BEGIN FUNCTION #" ++ nat_str (i + 1) ++ ": "
            ++ py_str fn_name ++ " ----" ++ LF in
      description <- py_getitem fn "description" ;;
      let ret := ret ++ "Description: " ++ py_str description ++ LF in
      fields <- py_items fn ;;
      ret <-
        (if dict_has fields "parameters" then
           let ret := ret ++ "Parameters:" ++ LF in
           parameters <- dict_item fields "parameters" ;;
           properties <- py_get parameters "properties" (PDict []) ;;
           required <- py_get parameters "required" (PList []) ;;
           required_params <- py_set required ;;
           items <- py_items properties ;;
           describe_parameters items required_params 0 ret
         else Ok (ret ++ "No parameters are required for this function." ++ LF)) ;;
      let ret := ret ++ "---- END FUNCTION #" ++ nat_str (i + 1) ++ " ----" ++ LF in
      describe_tools rest (S i) ret
  end.

(** [Message._tools_to_description] *)
Definition _tools_to_description (tools : list pydict) : result string :=
  describe_tools tools 0 "".

(** [Message._tool_call_to_string] *)
Definition _tool_call_to_string (tool_call : pydict) : result string :=
  if negb (dict_has tool_call "function")
  then Raise (ValueError "Tool call must contain 'function' key.")
  else if negb (dict_has tool_call "id")
  then Raise (ValueError "Tool call must contain 'id' key.")
  else if negb (dict_has tool_call "type")
  then Raise (ValueError "Tool call must contain 'type' key.")
  else
    type <- dict_item tool_call "type" ;;
    if negb (py_eq_str type "function")
    then Raise (ValueError "Tool call type must be 'function'.")
    else
      fn <- dict_item tool_call "function" ;;
      fn_name <- py_getitem fn "name" ;;
      let ret := "<function=" ++ py_str fn_name ++ ">" ++ LF in
      let body :=
        arguments <- py_getitem fn "arguments" ;;
        args <- py_json_loads arguments ;;
        items <- py_items args ;;
        Ok (fold_left append_parameter items ret) in
      match body with
      | Raise JSONDecodeError =>
          arguments <- py_getitem fn "arguments" ;;
          Raise (ValueError
                   ("Failed to parse arguments as JSON. Arguments: " ++ py_str arguments))
      | Raise e => Raise e
      | Ok ret => Ok (ret ++ "</function>")
      end.

(** ** The conversation rewriter *)

(** One element of a raw list content:
    [TextContent(text=item['text']) if item['type'] == 'text'
     else ImageContent(image_urls=[item['image_url']['url']])]. *)
Definition content_of_item (item : pyval) : result Content :=
  type <- py_getitem item "type" ;;
  if py_eq_str type "text" then
    t <- py_getitem item "text" ;;
    s <- validate_str t ;;
    Ok (CText (new_TextContent s))
  else
    image_url <- py_getitem item "image_url" ;;
    url <- py_getitem image_url "url" ;;
    u <- validate_str url ;;
    Ok (CImage (new_ImageContent [u])).

(** The body of the loop of [convert_messages_to_non_native]: the entry
    appended to [converted_messages] and the new value of
    [first_user_message_encountered]. *)
Definition convert_message (system_prompt_suffix : string) (message : pydict)
  (first_user_message_encountered : bool) : result (pyval * bool) :=
  role <- dict_item message "role" ;;
  let content := dict_get_default message "content" (PStr "") in
  if py_eq_str role "system" then
    content_list <-
      match content with
      | PStr s => Ok [CText (new_TextContent (s ++ system_prompt_suffix))]
      | PList items =>
          blocks <- map_result content_of_item items ;;
          Ok (blocks ++ [CText (new_TextContent system_prompt_suffix)])%list
      | _ => Ok []
      end ;;
    dumped <- Message_model_dump (new_Message role_system content_list false) ;;
    Ok (dumped, first_user_message_encountered)
  else if (py_eq_str role "user" && negb first_user_message_encountered)%bool then
    content_list <-
      match content with
      | PStr s =>
          Ok [CText (new_TextContent
                       (IN_CONTEXT_LEARNING_EXAMPLE_PREFIX ++ s
                          ++ IN_CONTEXT_LEARNING_EXAMPLE_SUFFIX))]
      | PList items =>
          blocks <- map_result content_of_item items ;;
          Ok ([CText (new_TextContent IN_CONTEXT_LEARNING_EXAMPLE_PREFIX)]
                ++ blocks
                ++ [CText (new_TextContent IN_CONTEXT_LEARNING_EXAMPLE_SUFFIX)])%list
      | _ => Ok []
      end ;;
    dumped <- Message_model_dump (new_Message role_user content_list false) ;;
    Ok (dumped, true)
  else if (py_eq_str role "assistant" && dict_has message "tool_calls")%bool then
    tool_calls <- dict_item message "tool_calls" ;;
    n <- py_len tool_calls ;;
    if negb (Nat.eqb n 1)
    then Raise (ValueError ("Expected exactly one tool call, got " ++ nat_str n))
    else
      content_list <-
        (if py_truthy (dict_get_default message "content" PNone) then
           c <- dict_item message "content" ;;
           s <- validate_str c ;;
           Ok [CText (new_TextContent s)]
         else Ok []) ;;
      first <- py_first tool_calls ;;
      fn <- py_getitem first "function" ;;
      fn_name <- py_getitem fn "name" ;;
      fn_arguments <- py_getitem fn "arguments" ;;
      id <- py_getitem first "id" ;;
      fn_name <- validate_str fn_name ;;
      fn_arguments <- validate_str fn_arguments ;;
      id <- validate_str id ;;
      let content_list :=
        (content_list ++ [CToolCall (mkToolCallContent false fn_name fn_arguments id)])%list in
      dumped <- Message_model_dump (new_Message role_assistant content_list false) ;;
      Ok (dumped, first_user_message_encountered)
  else if py_eq_str role "tool" then
    id <- dict_item message "tool_call_id" ;;
    let tool_name := dict_get_default message "name" (PStr "function") in
    c <- dict_item message "content" ;;
    id <- validate_str id ;;
    tool_name <- validate_str tool_name ;;
    c <- validate_str c ;;
    let content_list := [CToolResponse (mkToolResponseContent false id tool_name c)] in
    dumped <- Message_model_dump (new_Message role_tool content_list false) ;;
    Ok (dumped, first_user_message_encountered)
  else Ok (PDict message, first_user_message_encountered).

(** The loop itself, threading [first_user_message_encountered] and
    [converted_messages]. *)
Fixpoint convert_loop (system_prompt_suffix : string) (messages : list pydict)
  (first_user_message_encountered : bool) (converted_messages : list pyval)
  : result (list pyval) :=
  match messages with
  | [] => Ok converted_messages
  | message :: rest =>
      '(converted, seen) <-
        convert_message system_prompt_suffix message first_user_message_encountered ;;
      convert_loop system_prompt_suffix rest seen (converted_messages ++ [converted])
  end.

(** [Message.convert_messages_to_non_native] *)
Definition convert_messages_to_non_native (messages tools : list pydict)
  : result (list pyval) :=
  formatted_tools <- _tools_to_description tools ;;
  let system_prompt_suffix := SYSTEM_PROMPT_SUFFIX_TEMPLATE formatted_tools in
  convert_loop system_prompt_suffix messages false [].

(** ** What the specification says, in its own words *)

(** [{type: image_url, image_url: {url}}], without and with the cache
    marker. *)
Definition image_object (url : string) : pyval :=
  PDict [("type", PStr "image_url"); ("image_url", PDict [("url", PStr url)])].

Definition image_object_cached (url : string) : pyval :=
  PDict [("type", PStr "image_url"); ("image_url", PDict [("url", PStr url)]);
         ("cache_control", PDict [("type", PStr "ephemeral")])].

(** The message-level tool call of the native format. *)
Definition native_tool_call (c : ToolCallContent) : pyval :=
  PDict [("id", PStr (call_tool_call_id c)); ("type", PStr "function");
         ("function", PDict [("name", PStr (function_name c));
                             ("arguments", PStr (function_arguments c))])].

Definition is_tool_call (c : Content) : bool :=
  match c with CToolCall _ => true | _ => false end.

Definition is_tool_response (c : Content) : bool :=
  match c with CToolResponse _ => true | _ => false end.

Definition is_image (c : Content) : bool :=
  match c with CImage _ => true | _ => false end.

(** One parameter line of the text encoding: the value between the tags,
    on lines of its own when it is a str with a newline in it. *)
Definition parameter_line (item : string * pyval) : string :=
  "<parameter=" ++ fst item ++ ">"
    ++ (if is_multiline_str (snd item)
        then LF ++ py_str (snd item) ++ LF
        else py_str (snd item))
    ++ "</parameter>" ++ LF.

Definition join_all (parts : list string) : string :=
  fold_right String.append "" parts.

(** The rendering of one block in string mode: nothing for an image. *)
Definition render_block (b : Content) : result (list string) :=
  match b with
  | CText c => Ok [text c]
  | CToolCall c => s <- ToolCallContent_to_string_format c ;; Ok [s]
  | CToolResponse c =>
      Ok ["EXECUTION RESULT of [" ++ response_name c ++ "]:" ++ LF ++ response_content c]
  | CImage _ => Ok []
  end.

(** The input schema of a tool descriptor, as the specification gives it:
    a name, a description and optional parameters; each property has an
    optional type, description and enum, and the required names are
    optional. *)
Record PropertySchema : Type := mkPropertySchema {
  property_type : option string;
  property_description : option string;
  property_enum : option (list pyval) }.

Record ParametersSchema : Type := mkParametersSchema {
  properties : list (string * PropertySchema);
  required : option (list string) }.

Record ToolSchema : Type := mkToolSchema {
  tool_name : string;
  tool_description : string;
  tool_parameters : option ParametersSchema }.

Definition optional_entry (k : string) (o : option pyval) : pydict :=
  match o with
  | Some v => [(k, v)]
  | None => []
  end.

(** The dicts a caller passes for such a schema. *)
Definition property_to_py (p : PropertySchema) : pyval :=
  PDict (optional_entry "type" (option_map PStr (property_type p))
           ++ optional_entry "description" (option_map PStr (property_description p))
           ++ optional_entry "enum" (option_map PList (property_enum p)))%list.

Definition parameters_to_py (ps : ParametersSchema) : pyval :=
  PDict ([("type", PStr "object");
          ("properties",
           PDict (map (fun np => (fst np, property_to_py (snd np))) (properties ps)))]
           ++ optional_entry "required"
                (option_map (fun names => PList (map PStr names)) (required ps)))%list.

Definition tool_to_py (t : ToolSchema) : pydict :=
  [("type", PStr "function");
   ("function",
    PDict ([("name", PStr (tool_name t)); ("description", PStr (tool_description t))]
             ++ optional_entry "parameters"
                  (option_map parameters_to_py (tool_parameters t)))%list)].

(** The elements of a list with their numbers, counting from [k]. *)
Fixpoint numbered {A : Type} (k : nat) (l : list A) : list (nat * A) :=
  match l with
  | [] => []
  | x :: rest => (k, x) :: numbered (S k) rest
  end.

Definition required_names (ps : ParametersSchema) : list string :=
  match required ps with
  | Some names => names
  | None => []
  end.

(** The line of parameter number [j]. *)
Definition parameter_text (required_set : list string) (j : nat)
  (np : string * PropertySchema) : string :=
  "  (" ++ nat_str j ++ ") " ++ fst np ++ " ("
    ++ match property_type (snd np) with Some t => t | None => "string" end
    ++ ", "
    ++ (if existsb (fun r => String.eqb r (fst np)) required_set
        then "required" else "optional")
    ++ "): "
    ++ match property_description (snd np) with
       | Some d => d
       | None => "No description provided"
       end
    ++ match property_enum (snd np) with
       | Some values =>
           LF ++ "Allowed values: ["
              ++ String.concat ", " (map (fun v => "`" ++ py_str v ++ "`") values) ++ "]"
       | None => ""
       end
    ++ LF.

(** The block of tool number [i]. *)
Definition tool_text (i : nat) (t : ToolSchema) : string :=
  "---- BEGIN FUNCTION #" ++ nat_str i ++ ": " ++ tool_name t ++ " ----" ++ LF
    ++ "Description: " ++ tool_description t ++ LF
    ++ match tool_parameters t with
       | Some ps =>
           "Parameters:" ++ LF
             ++ join_all (map (fun jp => parameter_text (required_names ps) (fst jp) (snd jp))
                            (numbered 1 (properties ps)))
       | None => "No parameters are required for this function." ++ LF
       end
    ++ "---- END FUNCTION #" ++ nat_str i ++ " ----" ++ LF.

(** The whole description: the blocks numbered from 1, an empty line
    between two blocks. *)
Definition description_text (tools : list ToolSchema) : string :=
  String.concat LF (map (fun it => tool_text (fst it) (snd it)) (numbered 1 tools)).

(** A raw message whose role is user. *)
Definition is_user_message (m : pydict) : bool :=
  match dict_get m "role" with
  | Some r => py_eq_str r "user"
  | None => false
  end.

(** The blocks of a raw list content, as a native backend writes them. *)
Inductive RawBlock : Type :=
| RawText (s : string)
| RawImage (url : string).

Definition raw_block_to_py (b : RawBlock) : pyval :=
  match b with
  | RawText s => PDict [("type", PStr "text"); ("text", PStr s)]
  | RawImage url =>
      PDict [("type", PStr "image_url"); ("image_url", PDict [("url", PStr url)])]
  end.

Fixpoint raw_texts (bs : list RawBlock) : list string :=
  match bs with
  | [] => []
  | RawText s :: rest => s :: raw_texts rest
  | RawImage _ :: rest => raw_texts rest
  end.

Definition raw_block_content (b : RawBlock) : Content :=
  match b with
  | RawText s => CText (new_TextContent s)
  | RawImage url => CImage (new_ImageContent [url])
  end.


(** The text encoding of a call of [nm] with the decoded arguments
    [items]. *)
Definition encoded_call (nm : string) (items : pydict) : string :=
  "<function=" ++ nm ++ ">" ++ LF ++ join_all (map parameter_line items) ++ "</function>".

(** ** Further definitions: the rest of the module and what is said of it *)

(** [Message.contains_image] *)
Definition contains_image (self : Message) : bool :=
  existsb (fun c => match c with CImage _ => true | _ => false end) (content self).

(** The fragments one block gives in list format, and how many they are:
    one per URL for an image block, one for any other block. *)
Definition block_fragments (b : Content) : list pyval :=
  match b with
  | CText c => [TextContent_serialize_model c]
  | CImage c => ImageContent_serialize_model c
  | CToolCall c => [ToolCallContent_serialize_model c]
  | CToolResponse c => [ToolResponseContent_serialize_model c]
  end.

Fixpoint fragment_count (items : list Content) : nat :=
  match items with
  | [] => 0
  | CImage c :: rest => List.length (image_urls c) + fragment_count rest
  | _ :: rest => S (fragment_count rest)
  end.

(** A ToolCall block whose text encoding fails. *)
Definition encoding_fails (b : Content) : bool :=
  match b with
  | CToolCall c => raises (ToolCallContent_to_string_format c)
  | _ => false
  end.

(** A value that has no [len()]. *)
Definition is_unsized (v : pyval) : bool :=
  match v with
  | PStr _ | PList _ | PDict _ => false
  | _ => true
  end.

Definition is_str_or_list (v : pyval) : bool :=
  match v with
  | PStr _ | PList _ => true
  | _ => false
  end.

Definition is_dict (v : pyval) : bool :=
  match v with
  | PDict _ => true
  | _ => false
  end.

(** ** Lemmas on strings and lists *)

Lemma string_app_assoc (a b c : string) : (a ++ b) ++ c = a ++ (b ++ c).
Proof.
  induction a as [| x a IH]; simpl; [reflexivity | now rewrite IH].
Qed.

Lemma string_app_nil_r (a : string) : a ++ "" = a.
Proof.
  induction a as [| x a IH]; simpl; [reflexivity | now rewrite IH].
Qed.

Lemma fold_left_snoc_map {A B : Type} (f : A -> B) (l : list A) (acc : list B) :
  fold_left (fun acc x => (acc ++ [f x])%list) l acc = (acc ++ map f l)%list.
Proof.
  revert acc. induction l as [| x l IH]; intros acc; simpl.
  - now rewrite app_nil_r.
  - rewrite IH, <- app_assoc. reflexivity.
Qed.

Lemma update_last_snoc {A : Type} (f : A -> A) (l : list A) (x : A) :
  update_last f (l ++ [x]) = (l ++ [f x])%list.
Proof.
  induction l as [| y l IH]; simpl; [reflexivity |].
  rewrite IH. destruct l; reflexivity.
Qed.

(** ** Content blocks and message serialization *)

Lemma image_objects_plain (urls : list string) :
  fold_left
    (fun (images : list pydict) (url : string) =>
       (images ++ [[("type", PStr (ContentType_value IMAGE_URL));
                    ("image_url", PDict [("url", PStr url)])]])%list)
    urls [] =
  map (fun url => [("type", PStr "image_url");
                   ("image_url", PDict [("url", PStr url)])]) urls.
Proof.
  exact (fold_left_snoc_map
           (fun url => [("type", PStr "image_url");
                        ("image_url", PDict [("url", PStr url)])]) urls []).
Qed.

(** C6.  An image block serializes to one object per URL, in URL order;
    with [cache_prompt] set and at least one URL, the last object, and only
    the last, carries [cache_control]. *)
Theorem image_serialization (self : ImageContent) :
  ImageContent_serialize_model self =
  if (image_cache_prompt self && negb (Nat.eqb (List.length (image_urls self)) 0))%bool
  then (map image_object (removelast (image_urls self))
          ++ [image_object_cached (last (image_urls self) "")])%list
  else map image_object (image_urls self).
Proof.
  unfold ImageContent_serialize_model.
  rewrite image_objects_plain, length_map.
  destruct (image_cache_prompt self); simpl andb.
  - destruct (image_urls self) as [| u us] using rev_ind.
    + reflexivity.
    + rewrite length_app, Nat.add_comm. simpl Nat.eqb. simpl negb. cbv iota.
      rewrite removelast_last, last_last.
      rewrite (map_app _ us [u]). simpl (map _ [u]).
      rewrite update_last_snoc, map_app, map_map. reflexivity.
  - cbv beta iota. rewrite map_map. reflexivity.
Qed.

(** C2.  A message holding the single Text block hello serializes, for
    every role and under each setting of the three format flags, to the
    role and the content: the str hello in string format, the one-element
    list of the text object in list format, natively or not.  The text
    object is type and text; it carries [cache_control] as well only when
    the block was built with [cache_prompt] set, which is not its
    default. *)
Theorem text_message_format_matrix (r : Role) (cache vision native block_cache : bool)
  (calls : option (list pyval)) (call_id nm : option string) :
  Message_serialize_model
    (mkMessage r [CText (mkTextContent block_cache "hello")]
       cache vision native calls call_id nm) =
  Ok (PDict [("role", PStr (Role_value r));
             ("content",
              if (cache || vision)%bool
              then PList [PDict ([("type", PStr "text"); ("text", PStr "hello")]
                                   ++ if block_cache
                                      then [("cache_control",
                                             PDict [("type", PStr "ephemeral")])]
                                      else [])%list]
              else PStr "hello")])
  /\
  Message_serialize_model
    (mkMessage r [CText (new_TextContent "hello")] cache vision native calls call_id nm) =
  Ok (PDict [("role", PStr (Role_value r));
             ("content",
              if (cache || vision)%bool
              then PList [PDict [("type", PStr "text"); ("text", PStr "hello")]]
              else PStr "hello")]).
Proof.
  split; destruct native, cache, vision, block_cache; reflexivity.
Qed.

Lemma first_tool_call_found (pre post : list Content) (c : ToolCallContent) :
  existsb is_tool_call pre = false ->
  first_tool_call (pre ++ CToolCall c :: post) = Some c.
Proof.
  induction pre as [| b pre IH]; simpl; [reflexivity |].
  destruct b; simpl; try discriminate; exact IH.
Qed.

Lemma first_tool_call_absent (items : list Content) :
  existsb is_tool_call items = false -> first_tool_call items = None.
Proof.
  induction items as [| b items IH]; simpl; [reflexivity |].
  destruct b; simpl; try discriminate; exact IH.
Qed.

Lemma first_tool_response_found (pre post : list Content) (c : ToolResponseContent) :
  existsb is_tool_response pre = false ->
  first_tool_response (pre ++ CToolResponse c :: post) = Some c.
Proof.
  induction pre as [| b pre IH]; simpl; [reflexivity |].
  destruct b; simpl; try discriminate; exact IH.
Qed.

Lemma first_tool_call_split (items : list Content) :
  existsb is_tool_call items = true ->
  exists pre c post,
    items = (pre ++ CToolCall c :: post)%list /\ existsb is_tool_call pre = false.
Proof.
  induction items as [| b items IH]; [discriminate |].
  destruct b as [t | t | t | t]; cbn [existsb is_tool_call orb]; intros H.
  - destruct (IH H) as [pre [c [post [-> Hpre]]]].
    now exists (CText t :: pre), c, post.
  - destruct (IH H) as [pre [c [post [-> Hpre]]]].
    now exists (CImage t :: pre), c, post.
  - now exists [], t, items.
  - destruct (IH H) as [pre [c [post [-> Hpre]]]].
    now exists (CToolResponse t :: pre), c, post.
Qed.

Lemma first_tool_response_split (items : list Content) :
  existsb is_tool_response items = true ->
  exists pre c post,
    items = (pre ++ CToolResponse c :: post)%list /\ existsb is_tool_response pre = false.
Proof.
  induction items as [| b items IH]; [discriminate |].
  destruct b as [t | t | t | t]; cbn [existsb is_tool_response orb]; intros H.
  - destruct (IH H) as [pre [c [post [-> Hpre]]]].
    now exists (CText t :: pre), c, post.
  - destruct (IH H) as [pre [c [post [-> Hpre]]]].
    now exists (CImage t :: pre), c, post.
  - destruct (IH H) as [pre [c [post [-> Hpre]]]].
    now exists (CToolCall t :: pre), c, post.
  - now exists [], t, items.
Qed.

(** C3.  Native serialization.  When the content holds a ToolCall block,
    the output is the role, a null content and [tool_calls] with the one
    entry built from the first such block, whatever stands before or after
    it.  When it holds no ToolCall block but a ToolResponse block, the
    output is the role, the content of the first such block and its
    [tool_call_id] and [name], and nothing of the other blocks. *)
Theorem native_serializer_short_circuit (self : Message) :
  function_calling_enabled self = true ->
  (existsb is_tool_call (content self) = true ->
   exists pre c post,
     content self = (pre ++ CToolCall c :: post)%list
     /\ existsb is_tool_call pre = false
     /\ Message_serialize_model self =
        Ok (PDict [("role", PStr (Role_value (role self)));
                   ("content", PNone);
                   ("tool_calls", PList [native_tool_call c])]))
  /\
  (existsb is_tool_call (content self) = false ->
   existsb is_tool_response (content self) = true ->
   exists pre c post,
     content self = (pre ++ CToolResponse c :: post)%list
     /\ existsb is_tool_response pre = false
     /\ Message_serialize_model self =
        Ok (PDict [("role", PStr (Role_value (role self)));
                   ("content", PStr (response_content c));
                   ("tool_call_id", PStr (response_tool_call_id c));
                   ("name", PStr (response_name c))])).
Proof.
  intros Hnative. unfold Message_serialize_model. rewrite Hnative. split.
  - intros Hsome.
    destruct (first_tool_call_split _ Hsome) as [pre [c [post [Hc Hpre]]]].
    exists pre, c, post. repeat split; try assumption.
    unfold _native_function_serializer.
    rewrite Hc, (first_tool_call_found pre post c Hpre). reflexivity.
  - intros Hnone Hsome.
    destruct (first_tool_response_split _ Hsome) as [pre [c [post [Hc Hpre]]]].
    exists pre, c, post. repeat split; try assumption.
    unfold _native_function_serializer.
    rewrite (first_tool_call_absent _ Hnone), Hc,
      (first_tool_response_found pre post c Hpre).
    reflexivity.
Qed.

(** ** The function-call text encoding *)

Lemma append_parameter_line (ret : string) (item : string * pyval) :
  append_parameter ret item = ret ++ parameter_line item.
Proof.
  destruct item as [k v]. unfold append_parameter, parameter_line. simpl fst. simpl snd.
  destruct (is_multiline_str v); rewrite !string_app_assoc; reflexivity.
Qed.

Lemma fold_append_parameter (items : pydict) (ret : string) :
  fold_left append_parameter items ret = ret ++ join_all (map parameter_line items).
Proof.
  revert ret. induction items as [| item items IH]; intros ret.
  - simpl. now rewrite string_app_nil_r.
  - cbn [fold_left map join_all fold_right].
    rewrite IH, append_parameter_line, string_app_assoc. reflexivity.
Qed.

Lemma to_string_format_ok (self : ToolCallContent) (items : pydict) :
  json_loads (function_arguments self) = Some (PDict items) ->
  ToolCallContent_to_string_format self =
  Ok (encoded_call (function_name self) items).
Proof.
  intros Hargs. unfold ToolCallContent_to_string_format, py_json_loads.
  rewrite Hargs. cbn [bind py_items]. unfold encoded_call.
  rewrite fold_append_parameter, !string_app_assoc. reflexivity.
Qed.

(** C8.  When the arguments decode to a JSON object, the encoding is the
    opening tag, one parameter line per item of the decoded object in the
    order of its keys, and the closing tag.  In a line the value follows
    the opening tag directly and is followed directly by the closing tag,
    except for a str holding a newline, which gets a newline on each side;
    a value that is not a str is written as [str()] gives it. *)
Theorem to_string_format_encoding (self : ToolCallContent) (items : pydict) :
  json_loads (function_arguments self) = Some (PDict items) ->
  ToolCallContent_to_string_format self =
  Ok (encoded_call (function_name self) items)
  /\ (forall k v, is_multiline_str v = true ->
        parameter_line (k, v) =
        "<parameter=" ++ k ++ ">" ++ LF ++ py_str v ++ LF ++ "</parameter>" ++ LF)
  /\ (forall k v, is_multiline_str v = false ->
        parameter_line (k, v) =
        "<parameter=" ++ k ++ ">" ++ py_str v ++ "</parameter>" ++ LF)
  /\ (forall v, is_multiline_str v = true <-> exists s, v = PStr s /\ has_newline s = true)
  /\ (forall v, (forall s, v <> PStr s) -> py_str v = py_repr v).
Proof.
  intros Hargs. split; [| split; [| split; [| split]]].
  - exact (to_string_format_ok self items Hargs).
  - intros k v Hm. unfold parameter_line. simpl fst. simpl snd. rewrite Hm.
    rewrite !string_app_assoc. reflexivity.
  - intros k v Hm. unfold parameter_line. simpl fst. simpl snd. rewrite Hm. reflexivity.
  - intros v. split.
    + destruct v; simpl; try discriminate. intros H. now exists s.
    + intros [s [-> H]]. exact H.
  - intros v H. destruct v; try reflexivity. now elim (H s).
Qed.

(** ** String-mode serialization *)

Lemma string_format_parts_render (items : list Content) (acc : list string) :
  string_format_parts items acc =
  (parts <- map_result render_block items ;; Ok (acc ++ concat parts)%list).
Proof.
  revert acc. induction items as [| b items IH]; intros acc.
  - simpl. now rewrite app_nil_r.
  - destruct b as [c | c | c | c]; cbn [string_format_parts map_result render_block bind].
    + rewrite IH. destruct (map_result render_block items); simpl; [| reflexivity].
      now rewrite <- app_assoc.
    + rewrite IH. destruct (map_result render_block items); reflexivity.
    + destruct (ToolCallContent_to_string_format c) as [s | e]; simpl; [| reflexivity].
      rewrite IH. destruct (map_result render_block items); simpl; [| reflexivity].
      now rewrite <- app_assoc.
    + rewrite IH. destruct (map_result render_block items); simpl; [| reflexivity].
      now rewrite <- app_assoc.
Qed.

Lemma render_without_images (items : list Content) :
  map_result render_block (filter (fun b => negb (is_image b)) items) =
  (parts <- map_result render_block items ;;
   Ok (filter (fun p => negb (Nat.eqb (List.length p) 0)) parts)).
Proof.
  induction items as [| b items IH]; [reflexivity |].
  destruct b as [c | c | c | c]; cbn [filter is_image negb map_result render_block bind].
  - rewrite IH. destruct (map_result render_block items); reflexivity.
  - rewrite IH. destruct (map_result render_block items); reflexivity.
  - destruct (ToolCallContent_to_string_format c) as [s | e]; simpl; [| reflexivity].
    rewrite IH. destruct (map_result render_block items); reflexivity.
  - rewrite IH. destruct (map_result render_block items); reflexivity.
Qed.

Lemma concat_nonempty (parts : list (list string)) :
  concat (filter (fun p => negb (Nat.eqb (List.length p) 0)) parts) = concat parts.
Proof.
  induction parts as [| p parts IH]; [reflexivity |].
  destruct p as [| x p]; simpl; [exact IH | now rewrite IH].
Qed.

(** C7.  With native function calling off and the string format, the
    message serializes to its role and a content that is the newline-join
    of the renderings of its blocks in order: the text of a Text block, the
    text encoding of a ToolCall block, the execution-result text of a
    ToolResponse block, nothing for an image block (so that removing the
    image blocks changes nothing); it fails exactly when the encoding of
    one of its ToolCall blocks fails. *)
Theorem string_mode_serialization (r : Role) (items : list Content)
  (calls : option (list pyval)) (call_id nm : option string) :
  Message_serialize_model (mkMessage r items false false false calls call_id nm) =
  (parts <- map_result render_block items ;;
   Ok (PDict [("role", PStr (Role_value r));
              ("content", PStr (String.concat LF (concat parts)))]))
  /\
  Message_serialize_model (mkMessage r items false false false calls call_id nm) =
  Message_serialize_model
    (mkMessage r (filter (fun b => negb (is_image b)) items)
       false false false calls call_id nm).
Proof.
  assert (H : forall l : list Content,
             Message_serialize_model (mkMessage r l false false false calls call_id nm) =
             (parts <- map_result render_block l ;;
              Ok (PDict [("role", PStr (Role_value r));
                         ("content", PStr (String.concat LF (concat parts)))]))).
  { intros l. unfold Message_serialize_model, _string_function_serializer.
    cbn [cache_enabled vision_enabled function_calling_enabled orb content role].
    rewrite string_format_parts_render.
    destruct (map_result render_block l); reflexivity. }
  split; [apply H |].
  rewrite !H, render_without_images.
  destruct (map_result render_block items); simpl; [| reflexivity].
  now rewrite concat_nonempty.
Qed.

(** ** The tool description *)

Lemma required_membership (names : list string) (n : string) :
  existsb (fun r => py_eq_str r n) (map PStr names) =
  existsb (fun r => String.eqb r n) names.
Proof.
  induction names as [| x names IH]; simpl; [reflexivity | now rewrite IH].
Qed.

Lemma names_hashable (names : list string) :
  forallb is_hashable (map PStr names) = true.
Proof.
  induction names as [| x names IH]; simpl; [reflexivity | exact IH].
Qed.

Lemma describe_one_parameter (n : string) (p : PropertySchema) (req : list string)
  (rest : pydict) (j : nat) (ret : string) :
  describe_parameters ((n, property_to_py p) :: rest) (map PStr req) j ret =
  describe_parameters rest (map PStr req) (S j) (ret ++ parameter_text req (S j) (n, p)).
Proof.
  destruct p as [ty de en].
  destruct ty as [ty |], de as [de |], en as [en |];
    cbn [describe_parameters property_to_py property_type property_description
         property_enum optional_entry option_map app py_get dict_get_default dict_get
         py_items dict_has dict_item py_iter py_iadd_str bind String.eqb Ascii.eqb
         Bool.eqb];
    rewrite required_membership, Nat.add_1_r.
  all: unfold parameter_text; cbn [fst snd property_type property_description property_enum].
  all: cbn [py_str].
  all: rewrite ?string_app_assoc, ?string_app_nil_r.
  all: reflexivity.
Qed.

Lemma describe_parameters_text (props : list (string * PropertySchema))
  (req : list string) (j : nat) (ret : string) :
  describe_parameters (map (fun np => (fst np, property_to_py (snd np))) props)
    (map PStr req) j ret =
  Ok (ret ++ join_all (map (fun jp => parameter_text req (fst jp) (snd jp))
                         (numbered (S j) props))).
Proof.
  revert j ret. induction props as [| [n p] props IH]; intros j ret.
  - simpl. now rewrite string_app_nil_r.
  - cbn [map fst snd numbered join_all fold_right].
    rewrite describe_one_parameter, IH, string_app_assoc. reflexivity.
Qed.

Lemma describe_one_tool (t : ToolSchema) (rest : list pydict) (i : nat) (ret : string) :
  describe_tools (tool_to_py t :: rest) i ret =
  describe_tools rest (S i)
    ((if (0 <? i)%nat then ret ++ LF else ret) ++ tool_text (S i) t).
Proof.
  destruct t as [nm de ps]. unfold tool_text.
  cbn [tool_name tool_description tool_parameters].
  destruct ps as [[props req] |];
    cbn [describe_tools tool_to_py tool_name tool_description tool_parameters
         parameters_to_py properties required required_names
         optional_entry option_map app py_get dict_get_default dict_get
         py_items dict_has dict_item py_getitem py_eq_str negb bind py_str
         String.eqb Ascii.eqb Bool.eqb];
    rewrite Nat.add_1_r.
  - destruct req as [req |];
      cbn [optional_entry option_map app dict_get_default dict_get
           String.eqb Ascii.eqb Bool.eqb py_set py_iter bind].
    + rewrite names_hashable. cbn [bind py_items].
      rewrite describe_parameters_text. cbn [bind].
      rewrite !string_app_assoc. reflexivity.
    + cbn [forallb bind py_items].
      rewrite (describe_parameters_text props []). cbn [bind].
      rewrite !string_app_assoc. reflexivity.
  - rewrite !string_app_assoc. reflexivity.
Qed.

Lemma concat_LF_cons (b : string) (bs : list string) :
  String.concat LF (b :: bs) = b ++ join_all (map (fun x => LF ++ x) bs).
Proof.
  revert b. induction bs as [| c bs IH]; intros b.
  - simpl. now rewrite string_app_nil_r.
  - change (String.concat LF (b :: c :: bs)) with (b ++ LF ++ String.concat LF (c :: bs)).
    rewrite IH. cbn [map join_all fold_right]. now rewrite string_app_assoc.
Qed.

Lemma describe_tools_text (tools : list ToolSchema) (i : nat) (ret : string) :
  describe_tools (map tool_to_py tools) (S i) ret =
  Ok (ret ++ join_all (map (fun x => LF ++ x)
                         (map (fun it => tool_text (fst it) (snd it))
                            (numbered (S (S i)) tools)))).
Proof.
  revert i ret. induction tools as [| t tools IH]; intros i ret.
  - simpl. now rewrite string_app_nil_r.
  - cbn [map numbered fst snd join_all fold_right].
    rewrite describe_one_tool, IH. cbn [Nat.ltb Nat.leb].
    rewrite !string_app_assoc. reflexivity.
Qed.

(** C9.  For tool schemas of the documented shape the description is the
    text of the blocks, numbered from 1 in input order and separated by an
    empty line; a tool without parameters gets the line saying that none
    are required; a parameter is numbered from 1 in input order, is
    required exactly when its name is among the required names, and an enum
    adds the line of allowed values, each between backquotes, joined by a
    comma and a space. *)
Theorem tools_description_text (tools : list ToolSchema) :
  _tools_to_description (map tool_to_py tools) = Ok (description_text tools).
Proof.
  unfold _tools_to_description, description_text.
  destruct tools as [| t tools]; [reflexivity |].
  cbn [map numbered fst snd].
  rewrite describe_one_tool, describe_tools_text, concat_LF_cons.
  reflexivity.
Qed.

(** ** The conversation rewriter *)

Lemma py_eq_str_true (v : pyval) (s : string) :
  py_eq_str v s = true -> v = PStr s.
Proof.
  destruct v; simpl; try discriminate.
  intros H. apply String.eqb_eq in H. now subst.
Qed.

(** Inversion of a successful computation, one step at a time. *)
Ltac invert_ok H :=
  repeat (cbn [bind] in H;
    match type of H with
    | Raise _ = Ok _ => discriminate H
    | bind ?r _ = Ok _ =>
        let E := fresh "E" in destruct r eqn:E; [| discriminate H]
    | (if ?b then _ else _) = Ok _ =>
        let E := fresh "E" in destruct b eqn:E
    end).

Lemma convert_message_flag (sfx : string) (m : pydict) (seen seen' : bool) (o : pyval) :
  convert_message sfx m seen = Ok (o, seen') ->
  seen' = (seen || is_user_message m)%bool.
Proof.
  unfold convert_message, is_user_message, dict_item.
  destruct (dict_get m "role") as [r |]; [| discriminate].
  cbn [bind].
  destruct (py_eq_str r "system") eqn:Hsys.
  { apply py_eq_str_true in Hsys. subst r. intros H. invert_ok H.
    inversion H; subst. now rewrite orb_false_r. }
  destruct (py_eq_str r "user") eqn:Huser.
  { destruct seen; cbn [negb andb orb].
    - apply py_eq_str_true in Huser. subst r. cbn.
      intros H. now inversion H.
    - intros H. invert_ok H. now inversion H. }
  cbn [andb]. rewrite orb_false_r.
  destruct (py_eq_str r "assistant" && dict_has m "tool_calls")%bool.
  { intros H. invert_ok H; now inversion H. }
  destruct (py_eq_str r "tool").
  { intros H. invert_ok H. now inversion H. }
  intros H. now inversion H.
Qed.

Lemma convert_loop_app (sfx : string) (pre rest : list pydict) (seen : bool)
  (acc out_pre : list pyval) :
  convert_loop sfx pre seen acc = Ok out_pre ->
  convert_loop sfx (pre ++ rest) seen acc =
  convert_loop sfx rest (seen || existsb is_user_message pre)%bool out_pre.
Proof.
  revert seen acc. induction pre as [| m pre IH]; intros seen acc H.
  - simpl in H. inversion H; subst. simpl. now rewrite orb_false_r.
  - cbn [convert_loop app] in *.
    destruct (convert_message sfx m seen) as [[c s] |] eqn:E; [| discriminate H].
    cbn [bind] in *. rewrite (IH _ _ H).
    rewrite (convert_message_flag _ _ _ _ _ E). cbn [existsb].
    now rewrite orb_assoc.
Qed.

Lemma convert_loop_extends (sfx : string) (msgs : list pydict) (seen : bool)
  (acc out : list pyval) :
  convert_loop sfx msgs seen acc = Ok out ->
  exists outs, out = (acc ++ outs)%list /\ List.length outs = List.length msgs.
Proof.
  revert seen acc. induction msgs as [| m msgs IH]; intros seen acc H.
  - simpl in H. inversion H; subst. exists []. now rewrite app_nil_r.
  - cbn [convert_loop] in H.
    destruct (convert_message sfx m seen) as [[c s] |] eqn:E; [| discriminate H].
    cbn [bind] in H. destruct (IH _ _ H) as [outs [-> Hlen]].
    exists (c :: outs). rewrite <- app_assoc. simpl. now rewrite Hlen.
Qed.

Lemma convert_loop_nth (sfx : string) (msgs : list pydict) (seen : bool)
  (acc out : list pyval) :
  convert_loop sfx msgs seen acc = Ok out ->
  forall i m, nth_error msgs i = Some m ->
  exists o s,
    convert_message sfx m (seen || existsb is_user_message (firstn i msgs))%bool
    = Ok (o, s)
    /\ nth_error out (List.length acc + i) = Some o.
Proof.
  revert seen acc. induction msgs as [| m0 msgs IH]; intros seen acc H i m Hi.
  - destruct i; discriminate Hi.
  - cbn [convert_loop] in H.
    destruct (convert_message sfx m0 seen) as [[c s] |] eqn:E; [| discriminate H].
    cbn [bind] in H. destruct i as [| i].
    + simpl in Hi. inversion Hi; subst m0. exists c, s. split.
      * simpl. now rewrite orb_false_r.
      * destruct (convert_loop_extends _ _ _ _ _ H) as [outs [-> _]].
        rewrite Nat.add_0_r, <- app_assoc, nth_error_app2 by lia.
        now rewrite Nat.sub_diag.
    + simpl in Hi. destruct (IH _ _ H i m Hi) as [o [s' [Ho Hn]]].
      exists o, s'. split.
      * cbn [firstn existsb]. rewrite orb_assoc.
        now rewrite <- (convert_message_flag _ _ _ _ _ E).
      * rewrite length_app in Hn. simpl in Hn.
        now replace (List.length acc + S i) with (List.length acc + 1 + i) by lia.
Qed.

Lemma convert_nth (messages tools : list pydict) (out : list pyval) :
  convert_messages_to_non_native messages tools = Ok out ->
  exists desc,
    _tools_to_description tools = Ok desc /\
    forall i m, nth_error messages i = Some m ->
    exists o s,
      convert_message (SYSTEM_PROMPT_SUFFIX_TEMPLATE desc) m
        (existsb is_user_message (firstn i messages)) = Ok (o, s)
      /\ nth_error out i = Some o.
Proof.
  unfold convert_messages_to_non_native. intros H.
  destruct (_tools_to_description tools) as [desc |]; [| discriminate H].
  cbn [bind] in H. exists desc. split; [reflexivity |].
  intros i m Hi. exact (convert_loop_nth _ _ _ _ _ H i m Hi).
Qed.

(** What the loop body does with a user message once one has been seen,
    with the first user message, and with a system message. *)
Lemma convert_later_user (sfx : string) (m : pydict) :
  is_user_message m = true ->
  convert_message sfx m true = Ok (PDict m, true).
Proof.
  unfold is_user_message, convert_message, dict_item.
  destruct (dict_get m "role") as [r |]; [| discriminate].
  intros H. apply py_eq_str_true in H. subst r. reflexivity.
Qed.

Lemma convert_first_user_str (sfx : string) (m : pydict) (c : string) :
  is_user_message m = true ->
  dict_get m "content" = Some (PStr c) ->
  convert_message sfx m false =
  Ok (PDict [("role", PStr "user");
             ("content",
              PStr (IN_CONTEXT_LEARNING_EXAMPLE_PREFIX ++ c
                      ++ IN_CONTEXT_LEARNING_EXAMPLE_SUFFIX))], true).
Proof.
  unfold is_user_message, convert_message, dict_item, dict_get_default.
  destruct (dict_get m "role") as [r |]; [| discriminate].
  intros H Hc. apply py_eq_str_true in H. subst r. rewrite Hc. reflexivity.
Qed.

Lemma content_of_raw_blocks (bs : list RawBlock) :
  map_result content_of_item (map raw_block_to_py bs) = Ok (map raw_block_content bs).
Proof.
  induction bs as [| b bs IH]; [reflexivity |].
  cbn [map map_result]. rewrite IH. destruct b; reflexivity.
Qed.

Lemma raw_blocks_parts (bs : list RawBlock) (items : list Content) (acc : list string) :
  string_format_parts (map raw_block_content bs ++ items) acc =
  string_format_parts items (acc ++ raw_texts bs).
Proof.
  revert acc. induction bs as [| b bs IH]; intros acc.
  - simpl. now rewrite app_nil_r.
  - destruct b; cbn [map app raw_block_content string_format_parts raw_texts].
    + rewrite IH, <- app_assoc. reflexivity.
    + apply IH.
Qed.

Lemma convert_first_user_blocks (sfx : string) (m : pydict) (bs : list RawBlock) :
  is_user_message m = true ->
  dict_get m "content" = Some (PList (map raw_block_to_py bs)) ->
  convert_message sfx m false =
  Ok (PDict [("role", PStr "user");
             ("content",
              PStr (String.concat LF
                      (IN_CONTEXT_LEARNING_EXAMPLE_PREFIX :: raw_texts bs
                         ++ [IN_CONTEXT_LEARNING_EXAMPLE_SUFFIX])))], true).
Proof.
  unfold is_user_message, convert_message, dict_item, dict_get_default.
  destruct (dict_get m "role") as [r |]; [| discriminate].
  intros H Hc. apply py_eq_str_true in H. subst r. rewrite Hc.
  cbn [bind py_eq_str String.eqb Ascii.eqb Bool.eqb negb andb].
  rewrite content_of_raw_blocks. cbn [bind].
  unfold Message_model_dump, Message_serialize_model, new_Message,
    _string_function_serializer.
  cbn [cache_enabled vision_enabled function_calling_enabled orb content role app
       string_format_parts].
  rewrite raw_blocks_parts. reflexivity.
Qed.

Lemma content_of_item_parts (v : pyval) (c : Content) (rest : list Content)
  (acc : list string) :
  content_of_item v = Ok c ->
  string_format_parts (c :: rest) acc =
  string_format_parts rest (acc ++ text_items [c]).
Proof.
  unfold content_of_item. intros H. invert_ok H; inversion H; subst;
    cbn [string_format_parts text_items].
  - reflexivity.
  - now rewrite app_nil_r.
Qed.

Lemma content_of_items_parts (items : list pyval) (blocks rest : list Content)
  (acc : list string) :
  map_result content_of_item items = Ok blocks ->
  string_format_parts (blocks ++ rest) acc =
  string_format_parts rest (acc ++ text_items blocks).
Proof.
  revert blocks acc. induction items as [| v items IH]; intros blocks acc H.
  - inversion H; subst. simpl. now rewrite app_nil_r.
  - cbn [map_result] in H.
    destruct (content_of_item v) as [c |] eqn:E; [| discriminate H].
    cbn [bind] in H.
    destruct (map_result content_of_item items) as [l |]; [| discriminate H].
    inversion H; subst.
    change ((c :: l) ++ rest)%list with (c :: (l ++ rest))%list.
    rewrite (content_of_item_parts v c _ acc E), (IH l _ eq_refl), <- app_assoc.
    f_equal. f_equal.
    unfold content_of_item in E. invert_ok E; inversion E; subst; reflexivity.
Qed.

Lemma convert_first_user_list (sfx : string) (m : pydict) (items : list pyval)
  (o : pyval) (seen : bool) :
  is_user_message m = true ->
  dict_get m "content" = Some (PList items) ->
  convert_message sfx m false = Ok (o, seen) ->
  exists blocks,
    map_result content_of_item items = Ok blocks
    /\ o = PDict [("role", PStr "user");
                  ("content",
                   PStr (String.concat LF
                           (IN_CONTEXT_LEARNING_EXAMPLE_PREFIX :: text_items blocks
                              ++ [IN_CONTEXT_LEARNING_EXAMPLE_SUFFIX])))].
Proof.
  unfold is_user_message, convert_message, dict_item, dict_get_default.
  destruct (dict_get m "role") as [r |]; [| discriminate].
  intros H Hc. apply py_eq_str_true in H. subst r. rewrite Hc.
  cbn [bind py_eq_str String.eqb Ascii.eqb Bool.eqb negb andb].
  destruct (map_result content_of_item items) as [blocks |] eqn:E; [| discriminate].
  cbn [bind].
  unfold Message_model_dump, Message_serialize_model, new_Message,
    _string_function_serializer.
  cbn [cache_enabled vision_enabled function_calling_enabled orb content role app
       string_format_parts].
  rewrite (content_of_items_parts items blocks _ _ E).
  cbn [string_format_parts bind dict_set]. intros Ho. inversion Ho; subst.
  exists blocks. split; reflexivity.
Qed.

Lemma convert_first_user_other (sfx : string) (m : pydict) (v : pyval) :
  is_user_message m = true ->
  dict_get m "content" = Some v ->
  is_str_or_list v = false ->
  convert_message sfx m false =
  Ok (PDict [("role", PStr "user"); ("content", PStr "")], true).
Proof.
  unfold is_user_message, convert_message, dict_item, dict_get_default.
  destruct (dict_get m "role") as [r |]; [| discriminate].
  intros H Hc Hv. apply py_eq_str_true in H. subst r. rewrite Hc.
  destruct v; try discriminate Hv; reflexivity.
Qed.

Lemma convert_first_user_default (sfx : string) (m : pydict) (c : string) :
  is_user_message m = true ->
  dict_get_default m "content" (PStr "") = PStr c ->
  convert_message sfx m false =
  Ok (PDict [("role", PStr "user");
             ("content",
              PStr (IN_CONTEXT_LEARNING_EXAMPLE_PREFIX ++ c
                      ++ IN_CONTEXT_LEARNING_EXAMPLE_SUFFIX))], true).
Proof.
  unfold is_user_message, convert_message, dict_item.
  destruct (dict_get m "role") as [r |]; [| discriminate].
  intros H Hc. apply py_eq_str_true in H. subst r. rewrite Hc. reflexivity.
Qed.

(** C5, as the code has it.  In a successful rewrite the example is
    injected into the first user message only, and there according to its
    content.  A str content (the empty str when the message has no content
    key) comes out between the example prefix and the example suffix.  A
    list content comes out as the example prefix, the texts of its text
    blocks and the example suffix, joined by newlines; so does, in
    particular, a list of text and image blocks as a native backend writes
    them.  Any other content, null for one, comes out as the empty str,
    with no prefix and no suffix.  Every user message after the first comes
    out as the raw message itself, unchanged, so that nothing is added to
    it. *)
Theorem first_user_injection_only (messages tools : list pydict) (out : list pyval) :
  convert_messages_to_non_native messages tools = Ok out ->
  (forall i m c,
      nth_error messages i = Some m ->
      is_user_message m = true ->
      existsb is_user_message (firstn i messages) = false ->
      dict_get_default m "content" (PStr "") = PStr c ->
      nth_error out i =
      Some (PDict [("role", PStr "user");
                   ("content",
                    PStr (IN_CONTEXT_LEARNING_EXAMPLE_PREFIX ++ c
                            ++ IN_CONTEXT_LEARNING_EXAMPLE_SUFFIX))]))
  /\
  (forall i m items,
      nth_error messages i = Some m ->
      is_user_message m = true ->
      existsb is_user_message (firstn i messages) = false ->
      dict_get m "content" = Some (PList items) ->
      exists blocks,
        map_result content_of_item items = Ok blocks
        /\ nth_error out i =
           Some (PDict [("role", PStr "user");
                        ("content",
                         PStr (String.concat LF
                                 (IN_CONTEXT_LEARNING_EXAMPLE_PREFIX
                                    :: text_items blocks
                                    ++ [IN_CONTEXT_LEARNING_EXAMPLE_SUFFIX])))]))
  /\
  (forall i m bs,
      nth_error messages i = Some m ->
      is_user_message m = true ->
      existsb is_user_message (firstn i messages) = false ->
      dict_get m "content" = Some (PList (map raw_block_to_py bs)) ->
      nth_error out i =
      Some (PDict [("role", PStr "user");
                   ("content",
                    PStr (String.concat LF
                            (IN_CONTEXT_LEARNING_EXAMPLE_PREFIX :: raw_texts bs
                               ++ [IN_CONTEXT_LEARNING_EXAMPLE_SUFFIX])))]))
  /\
  (forall i m v,
      nth_error messages i = Some m ->
      is_user_message m = true ->
      existsb is_user_message (firstn i messages) = false ->
      dict_get m "content" = Some v ->
      is_str_or_list v = false ->
      nth_error out i = Some (PDict [("role", PStr "user"); ("content", PStr "")]))
  /\
  (forall j m,
      nth_error messages j = Some m ->
      is_user_message m = true ->
      existsb is_user_message (firstn j messages) = true ->
      nth_error out j = Some (PDict m)).
Proof.
  intros H. destruct (convert_nth _ _ _ H) as [desc [_ Hnth]].
  split; [| split; [| split; [| split]]].
  - intros i m c Hi Hu Hfirst Hc.
    destruct (Hnth i m Hi) as [o [s [Ho Hn]]].
    rewrite Hfirst, (convert_first_user_default _ m c Hu Hc) in Ho.
    inversion Ho; subst. exact Hn.
  - intros i m items Hi Hu Hfirst Hc.
    destruct (Hnth i m Hi) as [o [s [Ho Hn]]].
    rewrite Hfirst in Ho.
    destruct (convert_first_user_list _ m items o s Hu Hc Ho) as [blocks [Hb ->]].
    exists blocks. split; [exact Hb | exact Hn].
  - intros i m bs Hi Hu Hfirst Hc.
    destruct (Hnth i m Hi) as [o [s [Ho Hn]]].
    rewrite Hfirst, (convert_first_user_blocks _ m bs Hu Hc) in Ho.
    inversion Ho; subst. exact Hn.
  - intros i m v Hi Hu Hfirst Hc Hv.
    destruct (Hnth i m Hi) as [o [s [Ho Hn]]].
    rewrite Hfirst, (convert_first_user_other _ m v Hu Hc Hv) in Ho.
    inversion Ho; subst. exact Hn.
  - intros j m Hj Hu Hseen.
    destruct (Hnth j m Hj) as [o [s [Ho Hn]]].
    rewrite Hseen, (convert_later_user _ m Hu) in Ho.
    inversion Ho; subst. exact Hn.
Qed.

(** A conversation made of user turns with str contents is always
    rewritten: the first turn wrapped, the others as they are. *)
Lemma convert_loop_later_users (sfx : string) (contents : list string)
  (acc : list pyval) :
  convert_loop sfx
    (map (fun c => [("role", PStr "user"); ("content", PStr c)]) contents) true acc =
  Ok (acc ++ map (fun c => PDict [("role", PStr "user"); ("content", PStr c)])
               contents)%list.
Proof.
  revert acc. induction contents as [| c contents IH]; intros acc.
  - simpl. now rewrite app_nil_r.
  - cbn [map convert_loop].
    rewrite (convert_later_user sfx [("role", PStr "user"); ("content", PStr c)])
      by reflexivity.
    cbn [bind]. rewrite IH, <- app_assoc. reflexivity.
Qed.

Lemma user_turns_rewrite (tools : list pydict) (desc c : string)
  (contents : list string) :
  _tools_to_description tools = Ok desc ->
  convert_messages_to_non_native
    (map (fun c => [("role", PStr "user"); ("content", PStr c)]) (c :: contents))
    tools =
  Ok (PDict [("role", PStr "user");
             ("content",
              PStr (IN_CONTEXT_LEARNING_EXAMPLE_PREFIX ++ c
                      ++ IN_CONTEXT_LEARNING_EXAMPLE_SUFFIX))]
        :: map (fun c => PDict [("role", PStr "user"); ("content", PStr c)]) contents).
Proof.
  intros Hd. unfold convert_messages_to_non_native. rewrite Hd.
  cbn [bind map convert_loop].
  rewrite (convert_first_user_str _ [("role", PStr "user"); ("content", PStr c)] c)
    by reflexivity.
  cbn [bind]. now rewrite convert_loop_later_users.
Qed.

Lemma convert_system_blocks (sfx : string) (m : pydict) (bs : list RawBlock)
  (seen : bool) :
  dict_get m "role" = Some (PStr "system") ->
  dict_get m "content" = Some (PList (map raw_block_to_py bs)) ->
  convert_message sfx m seen =
  Ok (PDict [("role", PStr "system");
             ("content", PStr (String.concat LF (raw_texts bs ++ [sfx])))], seen).
Proof.
  intros Hr Hc. unfold convert_message, dict_item, dict_get_default.
  rewrite Hr, Hc. cbn [bind py_eq_str String.eqb Ascii.eqb Bool.eqb].
  rewrite content_of_raw_blocks. cbn [bind].
  unfold Message_model_dump, Message_serialize_model, new_Message,
    _string_function_serializer.
  cbn [cache_enabled vision_enabled function_calling_enabled orb content role].
  rewrite raw_blocks_parts. reflexivity.
Qed.

(** C10.  In a successful rewrite, a system message whose raw content is a
    list of text and image blocks comes out with a str content: the texts
    of its text blocks and the system prompt suffix, joined by newlines.
    The first user message with such a content comes out with the example
    prefix, the texts of its text blocks and the example suffix, joined by
    newlines.  Either content is a function of the text blocks alone: no
    image URL of the turn reaches it. *)
Theorem rewrite_drops_images (messages tools : list pydict) (out : list pyval)
  (desc : string) :
  _tools_to_description tools = Ok desc ->
  convert_messages_to_non_native messages tools = Ok out ->
  (forall i m bs,
      nth_error messages i = Some m ->
      dict_get m "role" = Some (PStr "system") ->
      dict_get m "content" = Some (PList (map raw_block_to_py bs)) ->
      nth_error out i =
      Some (PDict [("role", PStr "system");
                   ("content",
                    PStr (String.concat LF
                            (raw_texts bs ++ [SYSTEM_PROMPT_SUFFIX_TEMPLATE desc])))]))
  /\
  (forall i m bs,
      nth_error messages i = Some m ->
      is_user_message m = true ->
      existsb is_user_message (firstn i messages) = false ->
      dict_get m "content" = Some (PList (map raw_block_to_py bs)) ->
      nth_error out i =
      Some (PDict [("role", PStr "user");
                   ("content",
                    PStr (String.concat LF
                            (IN_CONTEXT_LEARNING_EXAMPLE_PREFIX :: raw_texts bs
                               ++ [IN_CONTEXT_LEARNING_EXAMPLE_SUFFIX])))])).
Proof.
  intros Hd H. destruct (convert_nth _ _ _ H) as [desc' [Hd' Hnth]].
  rewrite Hd in Hd'. inversion Hd'; subst desc'. split.
  - intros i m bs Hi Hr Hc.
    destruct (Hnth i m Hi) as [o [s [Ho Hn]]].
    rewrite (convert_system_blocks _ m bs _ Hr Hc) in Ho.
    inversion Ho; subst. exact Hn.
  - intros i m bs Hi Hu Hfirst Hc.
    destruct (Hnth i m Hi) as [o [s [Ho Hn]]].
    rewrite Hfirst, (convert_first_user_blocks _ m bs Hu Hc) in Ho.
    inversion Ho; subst. exact Hn.
Qed.




Lemma split_at_nth {A : Type} (l : list A) (i : nat) (x : A) :
  nth_error l i = Some x -> l = (firstn i l ++ x :: skipn (S i) l)%list.
Proof.
  revert i. induction l as [| y l IH]; intros [| i] H; try discriminate H.
  - simpl in H. inversion H. reflexivity.
  - simpl in H. cbn [firstn skipn app]. f_equal. exact (IH i H).
Qed.


(** ** Arguments that are not valid JSON *)



(** ** Further properties of the serializers *)

Lemma list_format_flat (items : list Content) (acc : list pyval) :
  fold_left
    (fun (content : list pyval) (item : Content) =>
       match item with
       | CImage c => (content ++ ImageContent_serialize_model c)%list
       | CText c => (content ++ [TextContent_serialize_model c])%list
       | CToolCall c => (content ++ [ToolCallContent_serialize_model c])%list
       | CToolResponse c => (content ++ [ToolResponseContent_serialize_model c])%list
       end)
    items acc = (acc ++ flat_map block_fragments items)%list.
Proof.
  revert acc. induction items as [| b items IH]; intros acc.
  - simpl. now rewrite app_nil_r.
  - cbn [fold_left flat_map]. rewrite IH.
    destruct b; cbn [block_fragments]; now rewrite <- app_assoc.
Qed.

Lemma image_fragments_length (c : ImageContent) :
  List.length (ImageContent_serialize_model c) = List.length (image_urls c).
Proof.
  unfold ImageContent_serialize_model.
  rewrite image_objects_plain, length_map.
  destruct (image_cache_prompt c && _)%bool.
  - destruct (image_urls c) as [| u us] using rev_ind; [reflexivity |].
    rewrite map_app. cbn [map]. rewrite update_last_snoc.
    now rewrite !length_app, length_map.
  - now rewrite length_map.
Qed.

Lemma fragments_length (items : list Content) :
  List.length (flat_map block_fragments items) = fragment_count items.
Proof.
  induction items as [| b items IH]; [reflexivity |].
  cbn [flat_map]. rewrite length_app, IH.
  destruct b; cbn [block_fragments fragment_count List.length]; try reflexivity.
  now rewrite image_fragments_length.
Qed.

(** X1.  Without native function calling and with the list format, the
    serialization always succeeds, whatever the arguments of the ToolCall
    blocks are: the content is the list of the fragments of the blocks in
    order, the objects of an image block spliced in, so it has one element
    per URL of each image block and one per other block. *)
Theorem list_format_serialization (self : Message) :
  function_calling_enabled self = false ->
  (cache_enabled self || vision_enabled self)%bool = true ->
  Message_serialize_model self =
  Ok (PDict [("role", PStr (Role_value (role self)));
             ("content", PList (flat_map block_fragments (content self)))])
  /\ List.length (flat_map block_fragments (content self)) = fragment_count (content self).
Proof.
  intros Hf Hl. split; [| apply fragments_length].
  unfold Message_serialize_model, _string_function_serializer, list_format_content.
  rewrite Hf, Hl, list_format_flat. reflexivity.
Qed.

Lemma render_raises (items : list Content) :
  raises (map_result render_block items) = existsb encoding_fails items.
Proof.
  induction items as [| b items IH]; [reflexivity |].
  cbn [map_result existsb]. rewrite <- IH.
  destruct b as [c | c | c | c]; cbn [render_block encoding_fails bind orb].
  - destruct (map_result render_block items); reflexivity.
  - destruct (map_result render_block items); reflexivity.
  - destruct (ToolCallContent_to_string_format c); cbn [bind raises orb]; [| reflexivity].
    destruct (map_result render_block items); reflexivity.
  - destruct (map_result render_block items); reflexivity.
Qed.

(** X2.  Serializing a message fails in one situation only: native function
    calling is off, the format is the string format, and the text encoding
    of one of its ToolCall blocks fails. *)
Theorem serialization_failure (self : Message) :
  raises (Message_serialize_model self) =
  (negb (function_calling_enabled self)
   && negb (cache_enabled self || vision_enabled self)
   && existsb encoding_fails (content self))%bool.
Proof.
  unfold Message_serialize_model.
  destruct (function_calling_enabled self); [reflexivity |].
  unfold _string_function_serializer.
  destruct (cache_enabled self || vision_enabled self)%bool; [reflexivity |].
  rewrite string_format_parts_render, <- render_raises.
  destruct (map_result render_block (content self)); reflexivity.
Qed.

Lemma plain_parts (items : list Content) (acc : list string) :
  existsb is_tool_call items = false ->
  existsb is_tool_response items = false ->
  string_format_parts items acc = Ok (acc ++ text_items items)%list.
Proof.
  revert acc. induction items as [| b items IH]; intros acc Hc Hr.
  - simpl. now rewrite app_nil_r.
  - destruct b as [c | c | c | c]; cbn [existsb is_tool_call is_tool_response orb] in Hc, Hr;
      try discriminate; cbn [string_format_parts text_items].
    + rewrite (IH _ Hc Hr), <- app_assoc. reflexivity.
    + exact (IH _ Hc Hr).
Qed.

Lemma first_tool_response_absent (items : list Content) :
  existsb is_tool_response items = false -> first_tool_response items = None.
Proof.
  induction items as [| b items IH]; simpl; [reflexivity |].
  destruct b; simpl; try discriminate; exact IH.
Qed.

(** X3.  For a message without ToolCall and ToolResponse blocks the
    function-calling flag makes no difference: the native and the
    non-native serializer give the same output, in either content
    format. *)
Theorem plain_message_same_in_both_modes (r : Role) (items : list Content)
  (cache vision : bool) (calls : option (list pyval)) (call_id nm : option string) :
  existsb is_tool_call items = false ->
  existsb is_tool_response items = false ->
  Message_serialize_model (mkMessage r items cache vision true calls call_id nm) =
  Message_serialize_model (mkMessage r items cache vision false calls call_id nm).
Proof.
  intros Hc Hr.
  unfold Message_serialize_model, _native_function_serializer,
    _string_function_serializer.
  cbn [function_calling_enabled cache_enabled vision_enabled content role].
  rewrite (first_tool_call_absent _ Hc), (first_tool_response_absent _ Hr).
  destruct (cache || vision)%bool; [reflexivity |].
  rewrite (plain_parts items [] Hc Hr). reflexivity.
Qed.

(** X4.  Whatever the flags, a serialized message is a dict that holds the
    role of the message and a content.  It holds [tool_calls] exactly when
    native function calling is on and the message has a ToolCall block, and
    [tool_call_id] and [name] exactly when native function calling is on
    and the message has a ToolResponse block and no ToolCall block. *)
Theorem serialized_message_keys (self : Message) (out : pyval) :
  Message_serialize_model self = Ok out ->
  exists d,
    out = PDict d
    /\ dict_get d "role" = Some (PStr (Role_value (role self)))
    /\ dict_has d "content" = true
    /\ dict_has d "tool_calls" =
       (function_calling_enabled self && existsb is_tool_call (content self))%bool
    /\ dict_has d "tool_call_id" =
       (function_calling_enabled self && negb (existsb is_tool_call (content self))
        && existsb is_tool_response (content self))%bool
    /\ dict_has d "name" = dict_has d "tool_call_id".
Proof.
  unfold Message_serialize_model.
  destruct (function_calling_enabled self); cbn [andb].
  - unfold _native_function_serializer.
    destruct (existsb is_tool_call (content self)) eqn:Hc.
    + destruct (first_tool_call_split _ Hc) as [pre [c [post [Hs Hpre]]]].
      rewrite Hs, (first_tool_call_found pre post c Hpre).
      intros H. inversion H; subst. eexists. repeat split; reflexivity.
    + rewrite (first_tool_call_absent _ Hc). cbn [negb andb].
      destruct (existsb is_tool_response (content self)) eqn:Hr.
      * destruct (first_tool_response_split _ Hr) as [pre [c [post [Hs Hpre]]]].
        rewrite Hs, (first_tool_response_found pre post c Hpre).
        intros H. inversion H; subst. eexists. repeat split; reflexivity.
      * rewrite (first_tool_response_absent _ Hr).
        destruct (cache_enabled self || vision_enabled self)%bool;
          intros H; inversion H; subst; eexists; repeat split; reflexivity.
  - unfold _string_function_serializer.
    destruct (cache_enabled self || vision_enabled self)%bool.
    + intros H. inversion H; subst. eexists. repeat split; reflexivity.
    + destruct (string_format_parts (content self) []); cbn [bind]; [| discriminate].
      intros H. inversion H; subst. eexists. repeat split; reflexivity.
Qed.

Lemma render_without_image_parts (items : list Content) (parts : list (list string)) :
  existsb (fun c => match c with CImage _ => true | _ => false end) items = false ->
  map_result render_block items = Ok parts ->
  List.length (concat parts) = List.length items.
Proof.
  revert parts. induction items as [| b items IH]; intros parts Hi H.
  - inversion H. reflexivity.
  - destruct b as [c | c | c | c]; cbn [existsb orb] in Hi; try discriminate;
      cbn [map_result render_block bind] in H.
    + destruct (map_result render_block items) as [ps |]; [| discriminate H].
      inversion H; subst. simpl. now rewrite (IH ps Hi eq_refl).
    + destruct (ToolCallContent_to_string_format c); [| discriminate H].
      cbn [bind] in H.
      destruct (map_result render_block items) as [ps |]; [| discriminate H].
      inversion H; subst. simpl. now rewrite (IH ps Hi eq_refl).
    + destruct (map_result render_block items) as [ps |]; [| discriminate H].
      inversion H; subst. simpl. now rewrite (IH ps Hi eq_refl).
Qed.

Lemma fragment_count_without_images (items : list Content) :
  existsb (fun c => match c with CImage _ => true | _ => false end) items = false ->
  fragment_count items = List.length items.
Proof.
  induction items as [| b items IH]; [reflexivity |].
  destruct b; cbn [existsb orb fragment_count List.length]; try discriminate;
    intros H; now rewrite (IH H).
Qed.

(** X5.  When [contains_image] is false, no block is lost or multiplied by
    serialization: the list format has exactly one fragment per block, and
    a successful string format joins exactly one text per block. *)
Theorem no_image_no_loss (self : Message) :
  contains_image self = false ->
  List.length (list_format_content (content self)) = List.length (content self)
  /\ (forall content_parts,
        string_format_parts (content self) [] = Ok content_parts ->
        List.length content_parts = List.length (content self)).
Proof.
  unfold contains_image. intros H. split.
  - unfold list_format_content. rewrite list_format_flat. cbn [app].
    rewrite fragments_length.
    exact (fragment_count_without_images _ H).
  - intros content_parts. rewrite string_format_parts_render.
    destruct (map_result render_block (content self)) as [ps |] eqn:E; [| discriminate].
    cbn [bind]. intros Hp. inversion Hp; subst.
    exact (render_without_image_parts _ ps H E).
Qed.

(** ** Further properties of the two encoders *)

(** X6.  Arguments that are valid JSON but not an object (a list, a number,
    a string, null) make the encoding fail with AttributeError, not with the
    malformed-arguments error; an empty object gives the two tags with no
    parameter line between them. *)
Theorem to_string_format_non_object (self : ToolCallContent) (v : pyval) :
  json_loads (function_arguments self) = Some v ->
  (is_dict v = false -> ToolCallContent_to_string_format self = Raise AttributeError)
  /\ (v = PDict [] ->
      ToolCallContent_to_string_format self =
      Ok ("<function=" ++ function_name self ++ ">" ++ LF ++ "</function>")).
Proof.
  intros Hj. unfold ToolCallContent_to_string_format, py_json_loads.
  rewrite Hj. cbn [bind]. split.
  - intros Hd. destruct v; try discriminate Hd; reflexivity.
  - intros ->. cbn [py_items bind fold_left].
    now rewrite !string_app_assoc.
Qed.

(** X7.  On a raw tool call that has an id, the type function and a
    function with a str name and str arguments, and whose arguments are
    valid JSON, [_tool_call_to_string] returns exactly what
    [ToolCallContent.to_string_format] returns for the block with the same
    name and arguments: the same text, or the same AttributeError when the
    arguments are not an object.  The id and the cache flag play no part. *)
Theorem encoders_agree (tool_call fn : pydict) (nm args id' : string) (id v : pyval)
  (cache : bool) :
  dict_get tool_call "function" = Some (PDict fn) ->
  dict_get tool_call "id" = Some id ->
  dict_get tool_call "type" = Some (PStr "function") ->
  dict_get fn "name" = Some (PStr nm) ->
  dict_get fn "arguments" = Some (PStr args) ->
  json_loads args = Some v ->
  _tool_call_to_string tool_call =
  ToolCallContent_to_string_format (mkToolCallContent cache nm args id').
Proof.
  intros Hf Hid Ht Hn Ha Hj.
  unfold _tool_call_to_string, ToolCallContent_to_string_format, dict_has, dict_item.
  rewrite Hf, Hid, Ht.
  cbn [negb bind py_eq_str String.eqb Ascii.eqb Bool.eqb py_getitem
       function_name function_arguments].
  unfold dict_item. rewrite Hn, Ha. cbn [bind py_json_loads py_str]. rewrite Hj.
  cbn [bind]. destruct v; reflexivity.
Qed.

(** X8.  [_tool_call_to_string] checks the shape of the raw tool call before
    it looks at the function: a missing function, id or type key, or a type
    other than function, is reported by its own ValueError, in this order,
    whatever the rest of the dict holds. *)
Theorem tool_call_shape_errors (tool_call : pydict) :
  (dict_get tool_call "function" = None ->
   _tool_call_to_string tool_call =
   Raise (ValueError "Tool call must contain 'function' key."))
  /\ (dict_has tool_call "function" = true ->
      dict_get tool_call "id" = None ->
      _tool_call_to_string tool_call =
      Raise (ValueError "Tool call must contain 'id' key."))
  /\ (dict_has tool_call "function" = true ->
      dict_has tool_call "id" = true ->
      dict_get tool_call "type" = None ->
      _tool_call_to_string tool_call =
      Raise (ValueError "Tool call must contain 'type' key."))
  /\ (forall t,
        dict_has tool_call "function" = true ->
        dict_has tool_call "id" = true ->
        dict_get tool_call "type" = Some t ->
        py_eq_str t "function" = false ->
        _tool_call_to_string tool_call =
        Raise (ValueError "Tool call type must be 'function'.")).
Proof.
  unfold _tool_call_to_string, dict_has, dict_item.
  split; [| split; [| split]].
  - intros ->. reflexivity.
  - intros Hf ->. destruct (dict_get tool_call "function"); [reflexivity | discriminate].
  - intros Hf Hi ->.
    destruct (dict_get tool_call "function"); [| discriminate].
    destruct (dict_get tool_call "id"); [reflexivity | discriminate].
  - intros t Hf Hi -> Ht.
    destruct (dict_get tool_call "function"); [| discriminate].
    destruct (dict_get tool_call "id"); [| discriminate].
    cbn [negb bind]. now rewrite Ht.
Qed.

(** ** Further properties of the tool description *)

Lemma describe_tools_prefix (pre : list ToolSchema) (rest : list pydict) (i : nat)
  (ret : string) :
  exists ret',
    describe_tools (map tool_to_py pre ++ rest) i ret =
    describe_tools rest (List.length pre + i) ret'.
Proof.
  revert i ret. induction pre as [| t pre IH]; intros i ret.
  - exists ret. reflexivity.
  - cbn [map app List.length]. rewrite describe_one_tool.
    destruct (IH (S i) ((if (0 <? i)%nat then ret ++ LF else ret) ++ tool_text (S i) t))
      as [ret' H].
    exists ret'. rewrite H. now rewrite Nat.add_succ_r.
Qed.

(** X9.  A tool whose type is missing or is not function stops the
    description, after any number of well-formed tools and whatever follows
    it: with a KeyError for the missing key, with an AssertionError for the
    other type.  The rewriter describes the tools first, so it fails in the
    same way before it looks at any message. *)
Theorem tool_schema_rejected (pre : list ToolSchema) (t : pydict)
  (post messages : list pydict) :
  (dict_get t "type" = None ->
   _tools_to_description (map tool_to_py pre ++ t :: post) = Raise (KeyError "type")
   /\ convert_messages_to_non_native messages (map tool_to_py pre ++ t :: post) =
      Raise (KeyError "type"))
  /\
  (forall v,
      dict_get t "type" = Some v ->
      py_eq_str v "function" = false ->
      _tools_to_description (map tool_to_py pre ++ t :: post) = Raise AssertionError
      /\ convert_messages_to_non_native messages (map tool_to_py pre ++ t :: post) =
         Raise AssertionError).
Proof.
  unfold convert_messages_to_non_native, _tools_to_description.
  destruct (describe_tools_prefix pre (t :: post) 0 "") as [ret' H].
  rewrite H. cbn [describe_tools]. unfold dict_item. split.
  - intros ->. split; reflexivity.
  - intros v -> Hv. cbn [bind]. rewrite Hv. split; reflexivity.
Qed.

(** X10.  A function that has a [parameters] entry without properties and
    without required names gets the Parameters header and no parameter
    line; the line saying that no parameters are required is kept for a
    function with no [parameters] entry at all. *)
Theorem parameters_without_properties (t fn ps : pydict) (nm de : string) :
  dict_get t "type" = Some (PStr "function") ->
  dict_get t "function" = Some (PDict fn) ->
  dict_get fn "name" = Some (PStr nm) ->
  dict_get fn "description" = Some (PStr de) ->
  dict_get fn "parameters" = Some (PDict ps) ->
  dict_get ps "properties" = None ->
  dict_get ps "required" = None ->
  _tools_to_description [t] =
  Ok ("---- BEGIN FUNCTION #1: " ++ nm ++ " ----" ++ LF
        ++ "Description: " ++ de ++ LF
        ++ "Parameters:" ++ LF
        ++ "---- END FUNCTION #1 ----" ++ LF).
Proof.
  intros Ht Hf Hn Hd Hp Hpr Hr.
  unfold _tools_to_description. cbn [describe_tools]. unfold dict_item.
  rewrite Ht, Hf.
  cbn [bind py_eq_str String.eqb Ascii.eqb Bool.eqb negb py_getitem py_items
       Nat.ltb Nat.leb].
  unfold dict_item, dict_has. rewrite Hn, Hd, Hp.
  cbn [bind py_get py_str]. unfold dict_get_default. rewrite Hpr, Hr.
  cbn [bind py_set py_iter forallb py_items describe_parameters Nat.add].
  now rewrite !string_app_assoc.
Qed.

(** ** Further properties of the rewriter *)

(** X11.  A successful rewrite gives exactly one entry per input message,
    in order: no message is dropped, split or merged. *)
Theorem rewrite_keeps_length (messages tools : list pydict) (out : list pyval) :
  convert_messages_to_non_native messages tools = Ok out ->
  List.length out = List.length messages.
Proof.
  unfold convert_messages_to_non_native. intros H.
  destruct (_tools_to_description tools); [| discriminate H].
  cbn [bind] in H.
  destruct (convert_loop_extends _ _ _ _ _ H) as [outs [-> Hlen]].
  exact Hlen.
Qed.

Lemma convert_system_str (sfx : string) (m : pydict) (c : string) (seen : bool) :
  dict_get m "role" = Some (PStr "system") ->
  dict_get_default m "content" (PStr "") = PStr c ->
  convert_message sfx m seen =
  Ok (PDict [("role", PStr "system"); ("content", PStr (c ++ sfx))], seen).
Proof.
  intros Hr Hc. unfold convert_message, dict_item. rewrite Hr, Hc. reflexivity.
Qed.

(** X12.  Every system message with a str content, wherever it stands in
    the conversation, comes out with the formatted system prompt suffix
    appended directly to its content; a system message without a content
    key comes out with the suffix alone. *)
Theorem every_system_message_gets_suffix (messages tools : list pydict)
  (out : list pyval) (desc : string) :
  _tools_to_description tools = Ok desc ->
  convert_messages_to_non_native messages tools = Ok out ->
  forall i m c,
    nth_error messages i = Some m ->
    dict_get m "role" = Some (PStr "system") ->
    dict_get_default m "content" (PStr "") = PStr c ->
    nth_error out i =
    Some (PDict [("role", PStr "system");
                 ("content", PStr (c ++ SYSTEM_PROMPT_SUFFIX_TEMPLATE desc))]).
Proof.
  intros Hd H i m c Hi Hr Hc.
  destruct (convert_nth _ _ _ H) as [desc' [Hd' Hnth]].
  rewrite Hd in Hd'. inversion Hd'; subst desc'.
  destruct (Hnth i m Hi) as [o [s [Ho Hn]]].
  rewrite (convert_system_str _ m c _ Hr Hc) in Ho. inversion Ho; subst. exact Hn.
Qed.

Lemma convert_tool_message (sfx : string) (m : pydict) (id c nm : string) (seen : bool) :
  dict_get m "role" = Some (PStr "tool") ->
  dict_get m "tool_call_id" = Some (PStr id) ->
  dict_get m "content" = Some (PStr c) ->
  dict_get_default m "name" (PStr "function") = PStr nm ->
  convert_message sfx m seen =
  Ok (PDict [("role", PStr "tool");
             ("content", PStr ("EXECUTION RESULT of [" ++ nm ++ "]:" ++ LF ++ c))], seen).
Proof.
  intros Hr Hid Hc Hn. unfold convert_message, dict_item.
  rewrite Hr. cbn [bind py_eq_str String.eqb Ascii.eqb Bool.eqb andb].
  rewrite Hid, Hc, Hn. reflexivity.
Qed.

(** X13.  A tool message with a str [tool_call_id] and a str content comes
    out as the tool message whose content is the execution-result line for
    its name, or for the name function when it has none, followed by its
    content; the call id does not appear in the output. *)
Theorem tool_message_rewrite (messages tools : list pydict) (out : list pyval) :
  convert_messages_to_non_native messages tools = Ok out ->
  forall i m id c nm,
    nth_error messages i = Some m ->
    dict_get m "role" = Some (PStr "tool") ->
    dict_get m "tool_call_id" = Some (PStr id) ->
    dict_get m "content" = Some (PStr c) ->
    dict_get_default m "name" (PStr "function") = PStr nm ->
    nth_error out i =
    Some (PDict [("role", PStr "tool");
                 ("content",
                  PStr ("EXECUTION RESULT of [" ++ nm ++ "]:" ++ LF ++ c))]).
Proof.
  intros H i m id c nm Hi Hr Hid Hc Hn.
  destruct (convert_nth _ _ _ H) as [desc [_ Hnth]].
  destruct (Hnth i m Hi) as [o [s [Ho Hnt]]].
  rewrite (convert_tool_message _ m id c nm _ Hr Hid Hc Hn) in Ho.
  inversion Ho; subst. exact Hnt.
Qed.

Lemma convert_other (sfx : string) (m : pydict) (r : pyval) (seen : bool) :
  dict_get m "role" = Some r ->
  py_eq_str r "system" = false ->
  (py_eq_str r "user" && negb seen)%bool = false ->
  (py_eq_str r "assistant" && dict_has m "tool_calls")%bool = false ->
  py_eq_str r "tool" = false ->
  convert_message sfx m seen = Ok (PDict m, seen).
Proof.
  intros Hr Hs Hu Ha Ht. unfold convert_message, dict_item.
  rewrite Hr. cbn [bind]. now rewrite Hs, Hu, Ha, Ht.
Qed.

(** X14.  A message that is neither a system, user or tool message nor an
    assistant message with a [tool_calls] key (an assistant message with
    plain text, a message with an unknown role) comes out as the raw
    message itself, with all its keys. *)
Theorem other_messages_pass_through (messages tools : list pydict) (out : list pyval) :
  convert_messages_to_non_native messages tools = Ok out ->
  forall i m r,
    nth_error messages i = Some m ->
    dict_get m "role" = Some r ->
    py_eq_str r "system" = false ->
    py_eq_str r "user" = false ->
    py_eq_str r "tool" = false ->
    (py_eq_str r "assistant" && dict_has m "tool_calls")%bool = false ->
    nth_error out i = Some (PDict m).
Proof.
  intros H i m r Hi Hr Hs Hu Ht Ha.
  destruct (convert_nth _ _ _ H) as [desc [_ Hnth]].
  destruct (Hnth i m Hi) as [o [s [Ho Hn]]].
  rewrite (convert_other _ m r _ Hr Hs) in Ho; try assumption.
  - inversion Ho; subst. exact Hn.
  - now rewrite Hu.
Qed.

Lemma convert_fails_at (messages tools : list pydict) (i : nat) (m : pydict)
  (out_pre : list pyval) (e : exn) :
  nth_error messages i = Some m ->
  convert_messages_to_non_native (firstn i messages) tools = Ok out_pre ->
  (forall sfx seen, convert_message sfx m seen = Raise e) ->
  convert_messages_to_non_native messages tools = Raise e.
Proof.
  intros Hi Hpre He. unfold convert_messages_to_non_native in *.
  destruct (_tools_to_description tools) as [desc |]; [| discriminate Hpre].
  cbn [bind] in *. rewrite (split_at_nth messages i m Hi) at 1.
  rewrite (convert_loop_app _ _ _ _ _ _ Hpre). cbn [convert_loop].
  now rewrite He.
Qed.

(** X15.  A missing key stops the whole rewrite with the KeyError of that
    key, once the messages before it have been rewritten: [role] for any
    message, [tool_call_id] and then [content] for a tool message.  No
    partial list is returned. *)
Theorem missing_key_stops_rewrite (messages tools : list pydict) (i : nat) (m : pydict)
  (out_pre : list pyval) :
  nth_error messages i = Some m ->
  convert_messages_to_non_native (firstn i messages) tools = Ok out_pre ->
  (dict_get m "role" = None ->
   convert_messages_to_non_native messages tools = Raise (KeyError "role"))
  /\ (dict_get m "role" = Some (PStr "tool") ->
      dict_get m "tool_call_id" = None ->
      convert_messages_to_non_native messages tools = Raise (KeyError "tool_call_id"))
  /\ (dict_get m "role" = Some (PStr "tool") ->
      dict_has m "tool_call_id" = true ->
      dict_get m "content" = None ->
      convert_messages_to_non_native messages tools = Raise (KeyError "content")).
Proof.
  intros Hi Hpre. split; [| split].
  - intros Hr. apply (convert_fails_at _ _ i m out_pre _ Hi Hpre).
    intros sfx seen. unfold convert_message, dict_item. now rewrite Hr.
  - intros Hr Hid. apply (convert_fails_at _ _ i m out_pre _ Hi Hpre).
    intros sfx seen. unfold convert_message, dict_item. rewrite Hr.
    cbn [bind py_eq_str String.eqb Ascii.eqb Bool.eqb andb]. now rewrite Hid.
  - intros Hr Hid Hc. apply (convert_fails_at _ _ i m out_pre _ Hi Hpre).
    intros sfx seen. unfold convert_message, dict_item, dict_has in *. rewrite Hr.
    cbn [bind py_eq_str String.eqb Ascii.eqb Bool.eqb andb].
    destruct (dict_get m "tool_call_id"); [| discriminate Hid].
    cbn [bind]. now rewrite Hc.
Qed.

(** X16.  The test for tool calls is the presence of the [tool_calls] key,
    not its value: an assistant message whose [tool_calls] is null (or a
    number or a boolean) is not passed through but stops the rewrite with
    the TypeError of [len()]. *)
Theorem null_tool_calls_stop_rewrite (messages tools : list pydict) (i : nat)
  (m : pydict) (v : pyval) (out_pre : list pyval) :
  nth_error messages i = Some m ->
  convert_messages_to_non_native (firstn i messages) tools = Ok out_pre ->
  dict_get m "role" = Some (PStr "assistant") ->
  dict_get m "tool_calls" = Some v ->
  is_unsized v = true ->
  convert_messages_to_non_native messages tools = Raise TypeError.
Proof.
  intros Hi Hpre Hr Ht Hv. apply (convert_fails_at _ _ i m out_pre _ Hi Hpre).
  intros sfx seen. unfold convert_message, dict_item, dict_has. rewrite Hr, Ht.
  cbn [bind py_eq_str String.eqb Ascii.eqb Bool.eqb andb].
  destruct v; try discriminate Hv; reflexivity.
Qed.

Lemma convert_system_other (sfx : string) (m : pydict) (v : pyval) (seen : bool) :
  dict_get m "role" = Some (PStr "system") ->
  dict_get m "content" = Some v ->
  is_str_or_list v = false ->
  convert_message sfx m seen =
  Ok (PDict [("role", PStr "system"); ("content", PStr "")], seen).
Proof.
  intros Hr Hc Hv. unfold convert_message, dict_item, dict_get_default.
  rewrite Hr, Hc. destruct v; try discriminate Hv; reflexivity.
Qed.

(** X17.  A content that is present but neither a str nor a list (null, for
    one) is dropped without an error.  Such a system message comes out with
    an empty content and without the system prompt suffix; such a first
    user message comes out with an empty content and without the example,
    and it still counts as the first user message, so that the user
    messages after it are passed through as they are. *)
Theorem null_content_loses_injection (messages tools : list pydict) (out : list pyval) :
  convert_messages_to_non_native messages tools = Ok out ->
  (forall i m v,
      nth_error messages i = Some m ->
      dict_get m "role" = Some (PStr "system") ->
      dict_get m "content" = Some v ->
      is_str_or_list v = false ->
      nth_error out i = Some (PDict [("role", PStr "system"); ("content", PStr "")]))
  /\
  (forall i m v,
      nth_error messages i = Some m ->
      is_user_message m = true ->
      existsb is_user_message (firstn i messages) = false ->
      dict_get m "content" = Some v ->
      is_str_or_list v = false ->
      nth_error out i = Some (PDict [("role", PStr "user"); ("content", PStr "")])
      /\ forall j m',
           i < j ->
           nth_error messages j = Some m' ->
           is_user_message m' = true ->
           nth_error out j = Some (PDict m')).
Proof.
  intros H. destruct (convert_nth _ _ _ H) as [desc [_ Hnth]]. split.
  - intros i m v Hi Hr Hc Hv.
    destruct (Hnth i m Hi) as [o [s [Ho Hn]]].
    rewrite (convert_system_other _ m v _ Hr Hc Hv) in Ho.
    inversion Ho; subst. exact Hn.
  - intros i m v Hi Hu Hfirst Hc Hv. split.
    + destruct (Hnth i m Hi) as [o [s [Ho Hn]]].
      rewrite Hfirst, (convert_first_user_other _ m v Hu Hc Hv) in Ho.
      inversion Ho; subst. exact Hn.
    + intros j m' Hij Hj Hu'.
      destruct (Hnth j m' Hj) as [o [s [Ho Hn]]].
      assert (Hseen : existsb is_user_message (firstn j messages) = true).
      { apply existsb_exists. exists m. split; [| exact Hu].
        rewrite <- (firstn_skipn i messages) in Hi.
        apply nth_error_In with (n := i).
        rewrite nth_error_firstn. destruct (Nat.ltb_spec i j); [| lia].
        rewrite <- (firstn_skipn i messages).
        exact Hi. }
      rewrite Hseen, (convert_later_user _ m' Hu') in Ho.
      inversion Ho; subst. exact Hn.
Qed.

Lemma content_of_items_fail (bs : list RawBlock) (x : pyval) (rest : list pyval)
  (e : exn) :
  content_of_item x = Raise e ->
  map_result content_of_item (map raw_block_to_py bs ++ x :: rest) = Raise e.
Proof.
  intros Hx. induction bs as [| b bs IH].
  - cbn [map app map_result]. now rewrite Hx.
  - cbn [map app map_result]. rewrite IH. destruct b; reflexivity.
Qed.

(** X18.  In a list content every block whose type is not text is read as
    an image block.  A system message with such a block that has no
    [image_url] stops the rewrite with the KeyError of that key, a text
    block without [text] with the KeyError of [text], and a block without
    [type] with the KeyError of [type]; the well-formed blocks before it do
    not matter. *)
Theorem malformed_block_stops_rewrite (messages tools : list pydict) (i : nat)
  (m d : pydict) (bs : list RawBlock) (rest out_pre : list pyval) :
  nth_error messages i = Some m ->
  convert_messages_to_non_native (firstn i messages) tools = Ok out_pre ->
  dict_get m "role" = Some (PStr "system") ->
  dict_get m "content" = Some (PList (map raw_block_to_py bs ++ PDict d :: rest)) ->
  (dict_get d "type" = None ->
   convert_messages_to_non_native messages tools = Raise (KeyError "type"))
  /\ (dict_get d "type" = Some (PStr "text") ->
      dict_get d "text" = None ->
      convert_messages_to_non_native messages tools = Raise (KeyError "text"))
  /\ (forall t,
        dict_get d "type" = Some t ->
        py_eq_str t "text" = false ->
        dict_get d "image_url" = None ->
        convert_messages_to_non_native messages tools = Raise (KeyError "image_url")).
Proof.
  intros Hi Hpre Hr Hc.
  assert (Hfail : forall e, content_of_item (PDict d) = Raise e ->
                            convert_messages_to_non_native messages tools = Raise e).
  { intros e He. apply (convert_fails_at _ _ i m out_pre _ Hi Hpre).
    intros sfx seen. unfold convert_message, dict_item, dict_get_default.
    rewrite Hr, Hc. cbn [bind py_eq_str String.eqb Ascii.eqb Bool.eqb].
    now rewrite (content_of_items_fail bs (PDict d) rest e He). }
  split; [| split].
  - intros Ht. apply Hfail. unfold content_of_item, py_getitem, dict_item.
    now rewrite Ht.
  - intros Ht Hx. apply Hfail. unfold content_of_item, py_getitem, dict_item.
    rewrite Ht. cbn [bind py_eq_str String.eqb Ascii.eqb Bool.eqb]. now rewrite Hx.
  - intros t Ht Hne Hu. apply Hfail. unfold content_of_item, py_getitem, dict_item.
    rewrite Ht. cbn [bind]. rewrite Hne. now rewrite Hu.
Qed.

Lemma dumped_shape (r : Role) (items : list Content) (o : pyval) :
  Message_model_dump (new_Message r items false) = Ok o ->
  exists c, o = PDict [("role", PStr (Role_value r)); ("content", PStr c)].
Proof.
  unfold Message_model_dump, Message_serialize_model, new_Message,
    _string_function_serializer.
  cbn [cache_enabled vision_enabled function_calling_enabled orb content role].
  destruct (string_format_parts items []) as [parts |]; [| discriminate].
  cbn [bind]. intros H. inversion H. eexists. reflexivity.
Qed.

Lemma convert_message_shape (sfx : string) (m : pydict) (seen seen' : bool) (o : pyval) :
  convert_message sfx m seen = Ok (o, seen') ->
  o = PDict m
  \/ exists r c, o = PDict [("role", PStr (Role_value r)); ("content", PStr c)].
Proof.
  unfold convert_message.
  destruct (dict_item m "role") as [r |]; [| discriminate]. cbn [bind].
  destruct (py_eq_str r "system").
  { intros H. right.
    match type of H with bind ?x _ = _ => destruct x as [l |]; [| discriminate H] end.
    cbn [bind] in H.
    destruct (Message_model_dump (new_Message role_system l false)) as [du |] eqn:E;
      [| discriminate H].
    inversion H; subst. destruct (dumped_shape _ _ _ E) as [c ->]. now exists role_system, c. }
  destruct (py_eq_str r "user" && negb seen)%bool.
  { intros H. right.
    match type of H with bind ?x _ = _ => destruct x as [l |]; [| discriminate H] end.
    cbn [bind] in H.
    destruct (Message_model_dump (new_Message role_user l false)) as [du |] eqn:E;
      [| discriminate H].
    inversion H; subst. destruct (dumped_shape _ _ _ E) as [c ->]. now exists role_user, c. }
  destruct (py_eq_str r "assistant" && dict_has m "tool_calls")%bool.
  { intros H. right. invert_ok H.
    all: inversion H; subst.
    all: match goal with
         | E' : Message_model_dump (new_Message ?r' _ false) = Ok _ |- _ =>
             destruct (dumped_shape _ _ _ E') as [c ->]; now exists r', c
         end. }
  destruct (py_eq_str r "tool").
  { intros H. right. invert_ok H.
    all: inversion H; subst.
    all: match goal with
         | E' : Message_model_dump (new_Message ?r' _ false) = Ok _ |- _ =>
             destruct (dumped_shape _ _ _ E') as [c ->]; now exists r', c
         end. }
  intros H. inversion H. now left.
Qed.

(** X19.  Every entry of a successful rewrite is either the raw message
    itself or a dict with exactly a role and a str content: a rewritten
    message never carries [tool_calls], [tool_call_id], [name] or a list
    content. *)
Theorem rewritten_entries_are_text (messages tools : list pydict) (out : list pyval) :
  convert_messages_to_non_native messages tools = Ok out ->
  forall i m,
    nth_error messages i = Some m ->
    nth_error out i = Some (PDict m)
    \/ exists r c,
         nth_error out i =
         Some (PDict [("role", PStr (Role_value r)); ("content", PStr c)]).
Proof.
  intros H i m Hi.
  destruct (convert_nth _ _ _ H) as [desc [_ Hnth]].
  destruct (Hnth i m Hi) as [o [s [Ho Hn]]]. rewrite Hn.
  destruct (convert_message_shape _ _ _ _ _ Ho) as [-> | [r [c ->]]].
  - now left.
  - right. now exists r, c.
Qed.

End Model.

(** ** Closed examples *)

(** C3 on a message with two ToolCall blocks and on one with two
    ToolResponse blocks: the first of each kind is the one that shows. *)
Lemma native_serializer_short_circuit_witness :
  (exists pre c post,
      content sample_native_call_message = (pre ++ CToolCall c :: post)%list
      /\ existsb is_tool_call pre = false
      /\ Message_serialize_model sample_float_shown sample_str_repr
           sample_native_call_message =
         Ok (PDict [("role", PStr "assistant"); ("content", PNone);
                    ("tool_calls", PList [native_tool_call c])]))
  /\
  (exists pre c post,
      content sample_native_response_message = (pre ++ CToolResponse c :: post)%list
      /\ existsb is_tool_response pre = false
      /\ Message_serialize_model sample_float_shown sample_str_repr
           sample_native_response_message =
         Ok (PDict [("role", PStr "tool"); ("content", PStr (response_content c));
                    ("tool_call_id", PStr (response_tool_call_id c));
                    ("name", PStr (response_name c))])).
Proof.
  split.
  - exact (proj1
             (native_serializer_short_circuit sample_float_shown sample_str_repr
                sample_native_call_message eq_refl)
             eq_refl).
  - exact (proj2
             (native_serializer_short_circuit sample_float_shown sample_str_repr
                sample_native_response_message eq_refl)
             eq_refl eq_refl).
Defined.

(** The same two messages, evaluated. *)
Example native_serializer_samples :
  Message_serialize_model sample_float_shown sample_str_repr sample_native_call_message =
  Ok (PDict [("role", PStr "assistant"); ("content", PNone);
             ("tool_calls", PList [raw_tool_call "call_1" "run" sample_arguments])])
  /\
  Message_serialize_model sample_float_shown sample_str_repr
    sample_native_response_message =
  Ok (PDict [("role", PStr "tool"); ("content", PStr "a.txt");
             ("tool_call_id", PStr "call_1"); ("name", PStr "run")]).
Proof. split; reflexivity. Qed.

Lemma sample_arguments_decoded :
  json_loads sample_float_shown sample_arguments =
  Some (PDict [("cmd", PStr ("ls -la" ++ LF ++ "echo hi")); ("timeout", PInt 30)]).
Proof. vm_compute. reflexivity. Defined.

(** C8 on a call with a two-line str and a number. *)
Lemma to_string_format_encoding_witness :
  ToolCallContent_to_string_format sample_float_shown sample_str_repr sample_call =
  Ok ("<function=run>" ++ LF
        ++ "<parameter=cmd>" ++ LF ++ "ls -la" ++ LF ++ "echo hi" ++ LF
        ++ "</parameter>" ++ LF
        ++ "<parameter=timeout>30</parameter>" ++ LF
        ++ "</function>").
Proof.
  exact (proj1
           (to_string_format_encoding sample_float_shown sample_str_repr sample_call
              [("cmd", PStr ("ls -la" ++ LF ++ "echo hi")); ("timeout", PInt 30)]
              sample_arguments_decoded)).
Defined.

Lemma sample_conversation_rewritten :
  convert_messages_to_non_native sample_float_shown sample_str_repr
    sample_suffix_template sample_example_prefix sample_example_suffix
    sample_conversation [] =
  Ok [ PDict [("role", PStr "system");
              ("content", PStr ("You are helpful." ++ sample_suffix_template ""))];
       PDict [("role", PStr "user");
              ("content",
               PStr (sample_example_prefix ++ "List files" ++ sample_example_suffix))];
       PDict [("role", PStr "assistant");
              ("content", PStr ("<function=ls>" ++ LF ++ "</function>"))];
       PDict [("role", PStr "tool");
              ("content", PStr ("EXECUTION RESULT of [ls]:" ++ LF ++ "a.txt"))];
       PDict [("role", PStr "user"); ("content", PStr "And now the hidden ones")] ].
Proof. vm_compute. reflexivity. Defined.

Lemma sample_image_conversation_rewritten :
  convert_messages_to_non_native sample_float_shown sample_str_repr
    sample_suffix_template sample_example_prefix sample_example_suffix
    sample_image_conversation [] =
  Ok [ PDict [("role", PStr "system");
              ("content",
               PStr ("You are helpful." ++ LF ++ sample_suffix_template ""))];
       PDict [("role", PStr "user");
              ("content",
               PStr (sample_example_prefix ++ LF ++ "What is on the screen?" ++ LF
                       ++ sample_example_suffix))] ].
Proof. vm_compute. reflexivity. Defined.

(** C10 on a system message and a first user message that each carry an
    image: the rewritten contents hold the texts only. *)
Lemma rewrite_drops_images_witness :
  exists out,
    convert_messages_to_non_native sample_float_shown sample_str_repr
      sample_suffix_template sample_example_prefix sample_example_suffix
      sample_image_conversation [] = Ok out
    /\ nth_error out 0 =
       Some (PDict [("role", PStr "system");
                    ("content",
                     PStr (String.concat LF
                             ["You are helpful."; sample_suffix_template ""]))])
    /\ nth_error out 1 =
       Some (PDict [("role", PStr "user");
                    ("content",
                     PStr (String.concat LF
                             [sample_example_prefix; "What is on the screen?";
                              sample_example_suffix]))]).
Proof.
  eexists. split; [exact sample_image_conversation_rewritten |]. split.
  - exact (proj1
             (rewrite_drops_images sample_float_shown sample_str_repr
                sample_suffix_template sample_example_prefix sample_example_suffix
                sample_image_conversation [] _ "" eq_refl
                sample_image_conversation_rewritten)
             0 _ [RawText "You are helpful."; RawImage "https://example.org/logo.png"]
             eq_refl eq_refl eq_refl).
  - exact (proj2
             (rewrite_drops_images sample_float_shown sample_str_repr
                sample_suffix_template sample_example_prefix sample_example_suffix
                sample_image_conversation [] _ "" eq_refl
                sample_image_conversation_rewritten)
             1 _ [RawImage "https://example.org/shot.png";
                  RawText "What is on the screen?"]
             eq_refl eq_refl eq_refl eq_refl).
Defined.

Lemma sample_system_rewritten :
  convert_messages_to_non_native sample_float_shown sample_str_repr
    sample_suffix_template sample_example_prefix sample_example_suffix
    [sample_system] [] =
  Ok [PDict [("role", PStr "system");
             ("content", PStr ("You are helpful." ++ sample_suffix_template ""))]].
Proof. vm_compute. reflexivity. Defined.





(** ** Further evaluations *)

(** The decoder on a few texts: an object keeps the order of its keys, a
    repeated key keeps its first place and its last value, and texts that
    are not JSON are refused. *)
Example json_loads_samples :
  json_loads sample_float_shown "{}" = Some (PDict [])
  /\ json_loads sample_float_shown
       ("{" ++ DQ ++ "b" ++ DQ ++ ": [true, null], " ++ DQ ++ "a" ++ DQ ++ ": -7, "
            ++ DQ ++ "b" ++ DQ ++ ": false}") =
     Some (PDict [("b", PBool false); ("a", PInt (-7))])
  /\ json_loads sample_float_shown (DQ ++ "tab" ++ BS ++ "there" ++ DQ) =
     Some (PStr ("tab" ++ String (ascii_of_nat 9) "here"))
  /\ json_loads sample_float_shown "{" = None
  /\ json_loads sample_float_shown "[1,]" = None
  /\ json_loads sample_float_shown "01" = None
  /\ json_loads sample_float_shown "{'a': 1}" = None
  /\ json_loads sample_float_shown "" = None.
Proof. repeat split; vm_compute; reflexivity. Qed.

(** Values that are not a str, as an f-string writes them. *)
Example py_str_samples :
  py_str sample_str_repr (PInt 30) = "30"
  /\ py_str sample_str_repr (PInt (-4)) = "-4"
  /\ py_str sample_str_repr (PBool true) = "True"
  /\ py_str sample_str_repr PNone = "None"
  /\ py_str sample_str_repr (PList [PInt 1; PBool false]) = "[1, False]"
  /\ py_str sample_str_repr (PStr "as it is") = "as it is".
Proof. repeat split; reflexivity. Qed.

(** The image block of the specification's example: two URLs, the cache
    marker on the second object only. *)
Example image_serialization_two_urls :
  ImageContent_serialize_model (mkImageContent true ["a"; "b"]) =
  [ PDict [("type", PStr "image_url"); ("image_url", PDict [("url", PStr "a")])];
    PDict [("type", PStr "image_url"); ("image_url", PDict [("url", PStr "b")]);
           ("cache_control", PDict [("type", PStr "ephemeral")])] ]
  /\ ImageContent_serialize_model (mkImageContent false ["a"; "b"]) =
     [ PDict [("type", PStr "image_url"); ("image_url", PDict [("url", PStr "a")])];
       PDict [("type", PStr "image_url"); ("image_url", PDict [("url", PStr "b")])] ]
  /\ ImageContent_serialize_model (mkImageContent true []) = [].
Proof. repeat split; reflexivity. Qed.

(** String mode on a message with every kind of block. *)
Example string_mode_sample :
  Message_serialize_model sample_float_shown sample_str_repr
    (new_Message role_assistant
       [CText (new_TextContent "Look:"); CImage (new_ImageContent ["a"; "b"]);
        CToolCall sample_other_call; CToolResponse sample_response]
       false) =
  Ok (PDict [("role", PStr "assistant");
             ("content",
              PStr ("Look:" ++ LF ++ "<function=ls>" ++ LF ++ "</function>" ++ LF
                      ++ "EXECUTION RESULT of [run]:" ++ LF ++ "a.txt"))]).
Proof. vm_compute. reflexivity. Qed.

(** The ToolCall block whose arguments are not JSON: the class named in the
    handler is not bound in the module, so the failure is a NameError. *)
Example to_string_format_unbound_class :
  ToolCallContent_to_string_format sample_float_shown sample_str_repr sample_bad_call =
  Raise (NameError "FunctionCallConversionError").
Proof. vm_compute. reflexivity. Qed.

(** Two tools, one without parameters. *)
Example tools_description_sample :
  _tools_to_description sample_str_repr
    (map tool_to_py
       [ mkToolSchema "ls" "List files." None;
         mkToolSchema "run" "Run a command."
           (Some (mkParametersSchema
                    [("cmd", mkPropertySchema (Some "string") (Some "The command.") None);
                     ("mode", mkPropertySchema None None
                                (Some [PStr "fast"; PStr "safe"]))]
                    (Some ["cmd"]))) ]) =
  Ok ("---- BEGIN FUNCTION #1: ls ----" ++ LF
        ++ "Description: List files." ++ LF
        ++ "No parameters are required for this function." ++ LF
        ++ "---- END FUNCTION #1 ----" ++ LF
        ++ LF
        ++ "---- BEGIN FUNCTION #2: run ----" ++ LF
        ++ "Description: Run a command." ++ LF
        ++ "Parameters:" ++ LF
        ++ "  (1) cmd (string, required): The command." ++ LF
        ++ "  (2) mode (string, optional): No description provided" ++ LF
        ++ "Allowed values: [`fast`, `safe`]" ++ LF
        ++ "---- END FUNCTION #2 ----" ++ LF).
Proof. vm_compute. reflexivity. Qed.

(** An assistant turn without tool calls and an empty [tool_calls] list. *)
Example cardinality_samples :
  convert_messages_to_non_native sample_float_shown sample_str_repr
    sample_suffix_template sample_example_prefix sample_example_suffix
    [[("role", PStr "assistant"); ("content", PStr "Done.")]] [] =
  Ok [PDict [("role", PStr "assistant"); ("content", PStr "Done.")]]
  /\
  convert_messages_to_non_native sample_float_shown sample_str_repr
    sample_suffix_template sample_example_prefix sample_example_suffix
    [[("role", PStr "assistant"); ("tool_calls", PList [])]] [] =
  Raise (ValueError "Expected exactly one tool call, got 0").
Proof. split; vm_compute; reflexivity. Qed.

(** ** Closed examples for the further properties *)

Local Abbreviation sample_rewrite :=
  (convert_messages_to_non_native sample_float_shown sample_str_repr
     sample_suffix_template sample_example_prefix sample_example_suffix).

(** X1 on a message with a text, an image with two URLs and a ToolCall
    block whose arguments are not JSON. *)
Lemma list_format_serialization_witness :
  Message_serialize_model sample_float_shown sample_str_repr sample_list_format_message =
  Ok (PDict [("role", PStr "assistant");
             ("content",
              PList [PDict [("type", PStr "text"); ("text", PStr "Look:")];
                     image_object "a"; image_object "b";
                     PDict [("type", PStr "tool_call");
                            ("tool_calls", PList [raw_tool_call "call_1" "run" "{"])]])])
  /\ List.length (flat_map block_fragments (content sample_list_format_message)) = 4.
Proof.
  exact (list_format_serialization sample_float_shown sample_str_repr
           sample_list_format_message eq_refl eq_refl).
Defined.

(** X3 on two texts around an image. *)
Lemma plain_message_same_in_both_modes_witness :
  Message_serialize_model sample_float_shown sample_str_repr
    (mkMessage role_user sample_plain_blocks false false true None None None) =
  Message_serialize_model sample_float_shown sample_str_repr
    (mkMessage role_user sample_plain_blocks false false false None None None)
  /\
  Message_serialize_model sample_float_shown sample_str_repr
    (mkMessage role_user sample_plain_blocks false true true None None None) =
  Message_serialize_model sample_float_shown sample_str_repr
    (mkMessage role_user sample_plain_blocks false true false None None None).
Proof.
  split.
  - exact (plain_message_same_in_both_modes sample_float_shown sample_str_repr
             role_user sample_plain_blocks false false None None None eq_refl eq_refl).
  - exact (plain_message_same_in_both_modes sample_float_shown sample_str_repr
             role_user sample_plain_blocks false true None None None eq_refl eq_refl).
Defined.

(** X4 on the native message with two ToolCall blocks. *)
Lemma serialized_message_keys_witness :
  exists d,
    PDict [("role", PStr "assistant"); ("content", PNone);
           ("tool_calls", PList [raw_tool_call "call_1" "run" sample_arguments])] = PDict d
    /\ dict_get d "role" = Some (PStr "assistant")
    /\ dict_has d "content" = true
    /\ dict_has d "tool_calls" = true
    /\ dict_has d "tool_call_id" = false
    /\ dict_has d "name" = dict_has d "tool_call_id".
Proof.
  exact (serialized_message_keys sample_float_shown sample_str_repr
           sample_native_call_message _ eq_refl).
Defined.

(** X5 on the native message, which holds no image. *)
Lemma no_image_no_loss_witness :
  List.length (list_format_content (content sample_native_call_message)) = 4
  /\ (forall content_parts,
        string_format_parts sample_float_shown sample_str_repr
          (content sample_native_call_message) [] = Ok content_parts ->
        List.length content_parts = 4).
Proof.
  exact (no_image_no_loss sample_float_shown sample_str_repr
           sample_native_call_message eq_refl).
Defined.

(** X6 on arguments that are a JSON list, and on the empty object. *)
Lemma to_string_format_non_object_witness :
  ToolCallContent_to_string_format sample_float_shown sample_str_repr
    sample_list_arguments_call = Raise AttributeError
  /\
  ToolCallContent_to_string_format sample_float_shown sample_str_repr sample_other_call =
  Ok ("<function=ls>" ++ LF ++ "</function>").
Proof.
  split.
  - exact (proj1
             (to_string_format_non_object sample_float_shown sample_str_repr
                sample_list_arguments_call (PList [PInt 1; PInt 2]) eq_refl)
             eq_refl).
  - exact (proj2
             (to_string_format_non_object sample_float_shown sample_str_repr
                sample_other_call (PDict []) eq_refl)
             eq_refl).
Defined.

(** X7 on the call with a two-line str and a number. *)
Lemma encoders_agree_witness :
  _tool_call_to_string sample_float_shown sample_str_repr sample_raw_call =
  ToolCallContent_to_string_format sample_float_shown sample_str_repr sample_call.
Proof.
  exact (encoders_agree sample_float_shown sample_str_repr sample_raw_call _
           "run" sample_arguments "call_1" (PStr "call_1") _ false
           eq_refl eq_refl eq_refl eq_refl eq_refl sample_arguments_decoded).
Defined.

(** X8 on raw tool calls without a function, without an id, without a type
    and with another type. *)
Lemma tool_call_shape_errors_witness :
  _tool_call_to_string sample_float_shown sample_str_repr
    [("id", PStr "1"); ("type", PStr "function")] =
  Raise (ValueError "Tool call must contain 'function' key.")
  /\ _tool_call_to_string sample_float_shown sample_str_repr
       [("function", PNone); ("type", PStr "function")] =
     Raise (ValueError "Tool call must contain 'id' key.")
  /\ _tool_call_to_string sample_float_shown sample_str_repr
       [("function", PNone); ("id", PStr "1")] =
     Raise (ValueError "Tool call must contain 'type' key.")
  /\ _tool_call_to_string sample_float_shown sample_str_repr
       [("function", PNone); ("id", PStr "1"); ("type", PStr "custom")] =
     Raise (ValueError "Tool call type must be 'function'.").
Proof.
  split; [| split; [| split]].
  - exact (proj1
             (tool_call_shape_errors sample_float_shown sample_str_repr
                [("id", PStr "1"); ("type", PStr "function")])
             eq_refl).
  - exact (proj1 (proj2
             (tool_call_shape_errors sample_float_shown sample_str_repr
                [("function", PNone); ("type", PStr "function")]))
             eq_refl eq_refl).
  - exact (proj1 (proj2 (proj2
             (tool_call_shape_errors sample_float_shown sample_str_repr
                [("function", PNone); ("id", PStr "1")])))
             eq_refl eq_refl eq_refl).
  - exact (proj2 (proj2 (proj2
             (tool_call_shape_errors sample_float_shown sample_str_repr
                [("function", PNone); ("id", PStr "1"); ("type", PStr "custom")])))
             (PStr "custom") eq_refl eq_refl eq_refl eq_refl).
Defined.

(** X9 on a well-formed tool followed by one without a type and by one of
    another type; the conversation is never looked at. *)
Lemma tool_schema_rejected_witness :
  sample_rewrite sample_conversation
    (map tool_to_py [mkToolSchema "ls" "List files." None]
       ++ [("function", PDict [("name", PStr "run")])] :: []) =
  Raise (KeyError "type")
  /\
  sample_rewrite sample_missing_role
    (map tool_to_py [mkToolSchema "ls" "List files." None]
       ++ [("type", PStr "retrieval")] :: [tool_to_py (mkToolSchema "x" "y" None)]) =
  Raise AssertionError.
Proof.
  split.
  - exact (proj2
             (proj1
                (tool_schema_rejected sample_float_shown sample_str_repr
                   sample_suffix_template sample_example_prefix sample_example_suffix
                   [mkToolSchema "ls" "List files." None]
                   [("function", PDict [("name", PStr "run")])] [] sample_conversation)
                eq_refl)).
  - exact (proj2
             (proj2
                (tool_schema_rejected sample_float_shown sample_str_repr
                   sample_suffix_template sample_example_prefix sample_example_suffix
                   [mkToolSchema "ls" "List files." None]
                   [("type", PStr "retrieval")]
                   [tool_to_py (mkToolSchema "x" "y" None)] sample_missing_role)
                (PStr "retrieval") eq_refl eq_refl)).
Defined.

(** X10 on a function whose parameters hold a type only. *)
Lemma parameters_without_properties_witness :
  _tools_to_description sample_str_repr [sample_no_properties_tool] =
  Ok ("---- BEGIN FUNCTION #1: ping ----" ++ LF
        ++ "Description: Ping." ++ LF
        ++ "Parameters:" ++ LF
        ++ "---- END FUNCTION #1 ----" ++ LF).
Proof.
  exact (parameters_without_properties sample_str_repr sample_no_properties_tool
           _ _ "ping" "Ping." eq_refl eq_refl eq_refl eq_refl eq_refl eq_refl eq_refl).
Defined.

(** X11 on the conversation of five messages. *)
Lemma rewrite_keeps_length_witness :
  exists out,
    sample_rewrite sample_conversation [] = Ok out /\ List.length out = 5.
Proof.
  eexists. split; [exact sample_conversation_rewritten |].
  exact (rewrite_keeps_length sample_float_shown sample_str_repr
           sample_suffix_template sample_example_prefix sample_example_suffix
           sample_conversation [] _ sample_conversation_rewritten).
Defined.

Lemma sample_two_systems_rewritten :
  sample_rewrite sample_two_systems [] =
  Ok [ PDict [("role", PStr "system");
              ("content", PStr ("You are helpful." ++ sample_suffix_template ""))];
       PDict [("role", PStr "user");
              ("content",
               PStr (sample_example_prefix ++ "Hello" ++ sample_example_suffix))];
       PDict [("role", PStr "system"); ("content", PStr (sample_suffix_template ""))] ].
Proof. vm_compute. reflexivity. Defined.

(** X12 on a conversation with a system message at the start and one,
    without content, at the end. *)
Lemma every_system_message_gets_suffix_witness :
  exists out,
    sample_rewrite sample_two_systems [] = Ok out
    /\ nth_error out 0 =
       Some (PDict [("role", PStr "system");
                    ("content", PStr ("You are helpful." ++ sample_suffix_template ""))])
    /\ nth_error out 2 =
       Some (PDict [("role", PStr "system");
                    ("content", PStr ("" ++ sample_suffix_template ""))]).
Proof.
  eexists. split; [exact sample_two_systems_rewritten |]. split.
  - exact (every_system_message_gets_suffix sample_float_shown sample_str_repr
             sample_suffix_template sample_example_prefix sample_example_suffix
             sample_two_systems [] _ "" eq_refl sample_two_systems_rewritten
             0 sample_system "You are helpful." eq_refl eq_refl eq_refl).
  - exact (every_system_message_gets_suffix sample_float_shown sample_str_repr
             sample_suffix_template sample_example_prefix sample_example_suffix
             sample_two_systems [] _ "" eq_refl sample_two_systems_rewritten
             2 [("role", PStr "system")] "" eq_refl eq_refl eq_refl).
Defined.

Lemma sample_unnamed_tool_result_rewritten :
  sample_rewrite sample_unnamed_tool_result [] =
  Ok [ PDict [("role", PStr "tool");
              ("content", PStr ("EXECUTION RESULT of [function]:" ++ LF ++ "ok"))] ].
Proof. vm_compute. reflexivity. Defined.

(** X13 on a tool message with a name and on one without. *)
Lemma tool_message_rewrite_witness :
  (exists out,
      sample_rewrite sample_conversation [] = Ok out
      /\ nth_error out 3 =
         Some (PDict [("role", PStr "tool");
                      ("content", PStr ("EXECUTION RESULT of [ls]:" ++ LF ++ "a.txt"))]))
  /\
  (exists out,
      sample_rewrite sample_unnamed_tool_result [] = Ok out
      /\ nth_error out 0 =
         Some (PDict [("role", PStr "tool");
                      ("content",
                       PStr ("EXECUTION RESULT of [function]:" ++ LF ++ "ok"))])).
Proof.
  split; eexists.
  - split; [exact sample_conversation_rewritten |].
    exact (tool_message_rewrite sample_float_shown sample_str_repr
             sample_suffix_template sample_example_prefix sample_example_suffix
             sample_conversation [] _ sample_conversation_rewritten
             3 _ "1" "a.txt" "ls" eq_refl eq_refl eq_refl eq_refl eq_refl).
  - split; [exact sample_unnamed_tool_result_rewritten |].
    exact (tool_message_rewrite sample_float_shown sample_str_repr
             sample_suffix_template sample_example_prefix sample_example_suffix
             sample_unnamed_tool_result [] _ sample_unnamed_tool_result_rewritten
             0 _ "7" "ok" "function" eq_refl eq_refl eq_refl eq_refl eq_refl).
Defined.

Lemma sample_plain_assistant_rewritten :
  sample_rewrite sample_plain_assistant [] = Ok (map PDict sample_plain_assistant).
Proof. vm_compute. reflexivity. Defined.

(** X14 on an assistant message with plain text and an extra key, and on a
    message with a role the rewriter does not know. *)
Lemma other_messages_pass_through_witness :
  exists out,
    sample_rewrite sample_plain_assistant [] = Ok out
    /\ nth_error out 0 =
       Some (PDict [("role", PStr "assistant"); ("content", PStr "Done.");
                    ("refusal", PNone)])
    /\ nth_error out 1 =
       Some (PDict [("role", PStr "developer"); ("content", PStr "Be brief.")]).
Proof.
  eexists. split; [exact sample_plain_assistant_rewritten |]. split.
  - exact (other_messages_pass_through sample_float_shown sample_str_repr
             sample_suffix_template sample_example_prefix sample_example_suffix
             sample_plain_assistant [] _ sample_plain_assistant_rewritten
             0 _ (PStr "assistant") eq_refl eq_refl eq_refl eq_refl eq_refl eq_refl).
  - exact (other_messages_pass_through sample_float_shown sample_str_repr
             sample_suffix_template sample_example_prefix sample_example_suffix
             sample_plain_assistant [] _ sample_plain_assistant_rewritten
             1 _ (PStr "developer") eq_refl eq_refl eq_refl eq_refl eq_refl eq_refl).
Defined.

(** X15 on a message without a role and on a tool message without a call
    id, each after a system message. *)
Lemma missing_key_stops_rewrite_witness :
  sample_rewrite sample_missing_role [] = Raise (KeyError "role")
  /\ sample_rewrite sample_incomplete_tool_result [] = Raise (KeyError "tool_call_id").
Proof.
  split.
  - exact (proj1
             (missing_key_stops_rewrite sample_float_shown sample_str_repr
                sample_suffix_template sample_example_prefix sample_example_suffix
                sample_missing_role [] 1 _ _ eq_refl sample_system_rewritten)
             eq_refl).
  - exact (proj1 (proj2
             (missing_key_stops_rewrite sample_float_shown sample_str_repr
                sample_suffix_template sample_example_prefix sample_example_suffix
                sample_incomplete_tool_result [] 1 _ _ eq_refl sample_system_rewritten))
             eq_refl eq_refl).
Defined.

(** X16 on an assistant message with plain text and a null [tool_calls]. *)
Lemma null_tool_calls_stop_rewrite_witness :
  sample_rewrite sample_null_tool_calls [] = Raise TypeError.
Proof.
  exact (null_tool_calls_stop_rewrite sample_float_shown sample_str_repr
           sample_suffix_template sample_example_prefix sample_example_suffix
           sample_null_tool_calls [] 1 _ PNone _ eq_refl sample_system_rewritten
           eq_refl eq_refl eq_refl).
Defined.

Lemma sample_null_contents_rewritten :
  sample_rewrite sample_null_contents [] =
  Ok [ PDict [("role", PStr "system"); ("content", PStr "")];
       PDict [("role", PStr "user"); ("content", PStr "")];
       PDict [("role", PStr "user"); ("content", PStr "Second question")] ].
Proof. vm_compute. reflexivity. Defined.

(** X17 on a system message and a first user message with a null content,
    followed by a second user message. *)
Lemma null_content_loses_injection_witness :
  exists out,
    sample_rewrite sample_null_contents [] = Ok out
    /\ nth_error out 0 = Some (PDict [("role", PStr "system"); ("content", PStr "")])
    /\ nth_error out 1 = Some (PDict [("role", PStr "user"); ("content", PStr "")])
    /\ nth_error out 2 =
       Some (PDict [("role", PStr "user"); ("content", PStr "Second question")]).
Proof.
  eexists. split; [exact sample_null_contents_rewritten |]. split; [| split].
  - exact (proj1
             (null_content_loses_injection sample_float_shown sample_str_repr
                sample_suffix_template sample_example_prefix sample_example_suffix
                sample_null_contents [] _ sample_null_contents_rewritten)
             0 _ PNone eq_refl eq_refl eq_refl eq_refl).
  - exact (proj1
             (proj2
                (null_content_loses_injection sample_float_shown sample_str_repr
                   sample_suffix_template sample_example_prefix sample_example_suffix
                   sample_null_contents [] _ sample_null_contents_rewritten)
                1 _ PNone eq_refl eq_refl eq_refl eq_refl eq_refl)).
  - refine (proj2
              (proj2
                 (null_content_loses_injection sample_float_shown sample_str_repr
                    sample_suffix_template sample_example_prefix sample_example_suffix
                    sample_null_contents [] _ sample_null_contents_rewritten)
                 1 _ PNone eq_refl eq_refl eq_refl eq_refl eq_refl)
              2 _ _ eq_refl eq_refl).
    exact (le_n 2).
Defined.

(** X18 on a system message with a text block and an audio block. *)
Lemma malformed_block_stops_rewrite_witness :
  sample_rewrite sample_audio_block [] = Raise (KeyError "image_url").
Proof.
  exact (proj2 (proj2
           (malformed_block_stops_rewrite sample_float_shown sample_str_repr
              sample_suffix_template sample_example_prefix sample_example_suffix
              sample_audio_block [] 0 _
              [("type", PStr "input_audio"); ("input_audio", PStr "...")]
              [RawText "You are helpful."] [] []
              eq_refl eq_refl eq_refl eq_refl))
           (PStr "input_audio") eq_refl eq_refl eq_refl).
Defined.

(** X19 on the rewritten assistant turn of the conversation of five
    messages. *)
Lemma rewritten_entries_are_text_witness :
  exists out,
    sample_rewrite sample_conversation [] = Ok out
    /\ (nth_error out 2 =
        Some (PDict [("role", PStr "assistant");
                     ("tool_calls", PList [raw_tool_call "1" "ls" "{}"])])
        \/ exists r c,
             nth_error out 2 =
             Some (PDict [("role", PStr (Role_value r)); ("content", PStr c)])).
Proof.
  eexists. split; [exact sample_conversation_rewritten |].
  exact (rewritten_entries_are_text sample_float_shown sample_str_repr
           sample_suffix_template sample_example_prefix sample_example_suffix
           sample_conversation [] _ sample_conversation_rewritten 2 _ eq_refl).
Defined.

(** ** The first user turn, case by case *)

(** C5, amended: a str content is wrapped, a content key that is missing
    counts as the empty str, a list content is wrapped block-wise, and the
    later user turns are the raw messages. *)
Lemma first_user_injection_only_witness :
  (exists out,
      sample_rewrite sample_conversation [] = Ok out
      /\ nth_error out 1 =
         Some (PDict [("role", PStr "user");
                      ("content",
                       PStr (sample_example_prefix ++ "List files"
                               ++ sample_example_suffix))])
      /\ nth_error out 4 =
         Some (PDict [("role", PStr "user");
                      ("content", PStr "And now the hidden ones")]))
  /\
  (exists out,
      sample_rewrite sample_image_conversation [] = Ok out
      /\ nth_error out 1 =
         Some (PDict [("role", PStr "user");
                      ("content",
                       PStr (String.concat LF
                               [sample_example_prefix; "What is on the screen?";
                                sample_example_suffix]))]))
  /\
  (exists out,
      sample_rewrite sample_null_contents [] = Ok out
      /\ nth_error out 1 = Some (PDict [("role", PStr "user"); ("content", PStr "")])).
Proof.
  split; [| split]; eexists.
  - split; [exact sample_conversation_rewritten |]. split.
    + exact (proj1
               (first_user_injection_only sample_float_shown sample_str_repr
                  sample_suffix_template sample_example_prefix sample_example_suffix
                  sample_conversation [] _ sample_conversation_rewritten)
               1 [("role", PStr "user"); ("content", PStr "List files")] "List files"
               eq_refl eq_refl eq_refl eq_refl).
    + exact (proj2 (proj2 (proj2 (proj2
               (first_user_injection_only sample_float_shown sample_str_repr
                  sample_suffix_template sample_example_prefix sample_example_suffix
                  sample_conversation [] _ sample_conversation_rewritten))))
               4 [("role", PStr "user"); ("content", PStr "And now the hidden ones")]
               eq_refl eq_refl eq_refl).
  - split; [exact sample_image_conversation_rewritten |].
    exact (proj1 (proj2 (proj2
             (first_user_injection_only sample_float_shown sample_str_repr
                sample_suffix_template sample_example_prefix sample_example_suffix
                sample_image_conversation [] _ sample_image_conversation_rewritten)))
             1 _ [RawImage "https://example.org/shot.png";
                  RawText "What is on the screen?"]
             eq_refl eq_refl eq_refl eq_refl).
  - split; [exact sample_null_contents_rewritten |].
    exact (proj1 (proj2 (proj2 (proj2
             (first_user_injection_only sample_float_shown sample_str_repr
                sample_suffix_template sample_example_prefix sample_example_suffix
                sample_null_contents [] _ sample_null_contents_rewritten))))
             1 _ PNone eq_refl eq_refl eq_refl eq_refl eq_refl).
Defined.

(** C5 as stated fails: a first user message whose content is null comes
    out with an empty content, without the example prefix and suffix, and
    no later user message gets them either. *)
Lemma first_user_null_content_not_wrapped :
  exists out,
    sample_rewrite sample_null_contents [] = Ok out
    /\ nth_error out 1 = Some (PDict [("role", PStr "user"); ("content", PStr "")])
    /\ nth_error out 2 =
       Some (PDict [("role", PStr "user"); ("content", PStr "Second question")]).
Proof.
  eexists. split; [vm_compute; reflexivity |]. split; reflexivity.
Qed.

(** An assistant turn whose single tool call has arguments that are not
    JSON: the failure of the serializer comes out of [model_dump()]
    wrapped. *)
Example bad_call_rewrite_error :
  sample_rewrite sample_one_bad_call [] =
  Raise (PydanticSerializationError (NameError "FunctionCallConversionError")).
Proof. vm_compute. reflexivity. Qed.
